(** * Shallow embedding of the search, recommendation and attribute
    extraction core of the shopping-assistant repository.

    Sources embedded:
    - [src/src/shopping_assistant/indexing/product_index.py]  (ProductIndex)
    - [src/src/shopping_assistant/indexing/search_engine.py]  (SearchEngine)
    - [src/src/shopping_assistant/indexing/data_preprocessor.py]
    - [src/shopping_assistant/preprocessor.py]  (taxonomy, prices, buckets) *)

From Stdlib Require Import List String Ascii QArith Qabs Qminmax Qround ZArith Bool Lia.
From Stdlib Require Import Sorting.Permutation Sorting.Sorted.
Import ListNotations.

(* ------------------------------------------------------------------ *)
(** ** Floating point values                                           *)
(* ------------------------------------------------------------------ *)

(** A Python / numpy float.  Finite values are kept exactly in [Q]
    (IEEE rounding is not modelled); the infinities and NaN are kept,
    since pandas produces them ([fillna], division by zero). *)
Inductive fval : Type :=
| Num (q : Q)
| PInf
| NInf
| NaN.

Definition fisnan (x : fval) : bool :=
  match x with NaN => true | _ => false end.

(** [pd.Series.fillna(v)] on one cell. *)
Definition fillna (x v : fval) : fval := if fisnan x then v else x.

Definition Qlt_bool (a b : Q) : bool := negb (Qle_bool b a).

(** IEEE [<]: false as soon as one side is NaN. *)
Definition flt (x y : fval) : bool :=
  match x, y with
  | Num a, Num b => Qlt_bool a b
  | NInf, Num _ | NInf, PInf | Num _, PInf => true
  | _, _ => false
  end.


Definition qsign (a : Q) : comparison := Qcompare a 0.

Definition fneg (x : fval) : fval :=
  match x with Num a => Num (- a) | PInf => NInf | NInf => PInf | NaN => NaN end.

Definition fadd (x y : fval) : fval :=
  match x, y with
  | NaN, _ | _, NaN => NaN
  | PInf, NInf | NInf, PInf => NaN
  | PInf, _ | _, PInf => PInf
  | NInf, _ | _, NInf => NInf
  | Num a, Num b => Num (a + b)
  end.

Definition fsub (x y : fval) : fval := fadd x (fneg y).

(** Sign of a value, [None] for zero. *)
Definition fpos (x : fval) : option bool :=
  match x with
  | Num a => match qsign a with Gt => Some true | Lt => Some false | Eq => None end
  | PInf => Some true
  | NInf => Some false
  | NaN => None
  end.

Definition inf_of (b : bool) : fval := if b then PInf else NInf.

Definition fmul (x y : fval) : fval :=
  match x, y with
  | NaN, _ | _, NaN => NaN
  | Num a, Num b => Num (a * b)
  | _, _ =>
      match fpos x, fpos y with
      | Some s, Some t => inf_of (Bool.eqb s t)
      | _, _ => NaN   (* inf * 0 *)
      end
  end.

(** Division; the sign of a zero divisor is taken as [+0]. *)
Definition fdiv (x y : fval) : fval :=
  match x, y with
  | NaN, _ | _, NaN => NaN
  | Num a, Num b =>
      match qsign b with
      | Eq => match fpos x with Some s => inf_of s | None => NaN end
      | _ => Num (a / b)
      end
  | Num _, _ => Num 0
  | _, Num b =>
      match fpos x, fpos y with
      | Some s, Some t => inf_of (Bool.eqb s t)
      | Some s, None => inf_of s
      | _, _ => NaN
      end
  | _, _ => NaN   (* inf / inf *)
  end.

Definition fabs (x : fval) : fval :=
  match x with Num a => Num (Qabs a) | NInf => PInf | v => v end.

(** The total order numpy sorts with: [-inf < finite < +inf < nan]. *)
Definition frank (x : fval) : nat :=
  match x with NInf => 0 | Num _ => 1 | PInf => 2 | NaN => 3 end%nat.

Definition np_le (x y : fval) : bool :=
  match x, y with
  | Num a, Num b => Qle_bool a b
  | _, _ => Nat.leb (frank x) (frank y)
  end.

(** [Series.max()] with [skipna=True]: NaN only when every cell is NaN. *)
Definition series_max (xs : list fval) : fval :=
  fold_left (fun acc x =>
               if fisnan x then acc
               else if fisnan acc then x
               else if flt acc x then x else acc) xs NaN.

(* ------------------------------------------------------------------ *)
(** ** Exceptions and the error monad                                  *)
(* ------------------------------------------------------------------ *)

Inductive exn : Type :=
| ValueError (msg : string)
| AttributeError (msg : string)
| TypeError (msg : string)
| IndexError
| ReError (msg : string).   (* Python's [re.error] *)

Inductive res (A : Type) : Type :=
| Ok (a : A)
| Raise (e : exn).
Arguments Ok {A} a.
Arguments Raise {A} e.

Definition rbind {A B} (m : res A) (k : A -> res B) : res B :=
  match m with Ok a => k a | Raise e => Raise e end.

Notation "'let*' x := m 'in' k" := (rbind m (fun x => k))
  (at level 200, x name, m at level 100, k at level 200).

Fixpoint mapM {A B} (f : A -> res B) (l : list A) : res (list B) :=
  match l with
  | [] => Ok []
  | x :: xs => let* y := f x in let* ys := mapM f xs in Ok (y :: ys)
  end.

(** The outcome of [re.compile(pat, flags=re.IGNORECASE)]: the compiled
    pattern, by its test [pattern.search(x) is not None], or the message
    of the [re.error] it raises. *)
Inductive re_compiled : Type :=
| Pattern (matches : string -> bool)
| PatternError (msg : string).

(** [xs[i]] / [df.iloc[i]] for a non-negative position. *)
Definition iloc {A} (xs : list A) (i : nat) : res A :=
  match nth_error xs i with Some a => Ok a | None => Raise IndexError end.

(* ------------------------------------------------------------------ *)
(** ** Python slicing and numpy's argsort                              *)
(* ------------------------------------------------------------------ *)

(** [xs[start:]] for an integer [start] (negative counts from the end). *)
Definition py_slice_from {A} (start : Z) (xs : list A) : list A :=
  let n := Z.of_nat (List.length xs) in
  let s := if (start <? 0)%Z then Z.max 0 (n + start) else Z.min start n in
  skipn (Z.to_nat s) xs.

Section StableSort.
Context {A : Type} (le : A -> A -> bool).

(** Insert [x] before the first element it is [le] to: inserting the
    elements of a list from its last to its first keeps equal keys in
    their original order. *)
Fixpoint insert_by (x : nat * A) (l : list (nat * A)) : list (nat * A) :=
  match l with
  | [] => [x]
  | y :: ys => if le (snd x) (snd y) then x :: l else y :: insert_by x ys
  end.

Definition sort_by (l : list (nat * A)) : list (nat * A) :=
  fold_right insert_by [] l.
End StableSort.

(** Positions paired with their values, [enumerate] style. *)
Definition enumerate_from {A} (k : nat) (xs : list A) : list (nat * A) :=
  combine (seq k (List.length xs)) xs.

Section Runtime.

(** numpy's quicksort partitions arrays of more than 16 elements, and the
    order in which it leaves equal keys is not specified: it is taken as
    the order of a key [qs_ties xs i] on the positions [i] of [xs]. *)
Variable qs_ties : list fval -> nat -> nat.

(** [re.compile(pat, flags=re.IGNORECASE)], which [Series.str.contains]
    with [case=False] and the default [regex=True] calls. *)
Variable re_compile : string -> re_compiled.

(** An enumeration reordered (stably) by a key on its positions. *)
Definition tie_order (key : nat -> nat) (e : list (nat * fval)) : list (nat * fval) :=
  map snd (sort_by (fun x y => Nat.leb (key (fst x)) (key (fst y))) (enumerate_from 0 e)).

(** [np.argsort(xs)] (ascending) with numpy's default kind, its generic
    quicksort: an array of at most 16 elements is sorted by insertion
    sort, which is stable; a longer one is partitioned, and its equal
    keys come out in the order of [qs_ties].  NaN sorts last.  (The SIMD
    sorts some numpy builds dispatch to on x86 are not modelled.) *)
Definition argsort (xs : list fval) : list nat :=
  let e := enumerate_from 0 xs in
  map fst (sort_by np_le (if (List.length xs <=? 16)%nat then e else tie_order (qs_ties xs) e)).

(** [Series.nlargest(n)] with [keep='first'] (pandas' [SelectNSeries]):
    nothing for [n <= 0].  For [n >= len(xs)] it is
    [sort_values(ascending=False).head(n)], whose [nargsort] reverses the
    non-NaN values and their positions, argsorts the values (quicksort),
    reverses the result and appends the NaN positions.  Otherwise the
    non-NaN values are sorted descending by a stable mergesort and the
    NaN positions appended, cut to [n]. *)
Definition nlargest (n : Z) (xs : list fval) : list nat :=
  if (n <=? 0)%Z then [] else
  let e := enumerate_from 0 xs in
  let dropped := filter (fun x => negb (fisnan (snd x))) e in
  let nan_index := map fst (filter (fun x => fisnan (snd x)) e) in
  if (Z.of_nat (List.length xs) <=? n)%Z then
    let non_nans := rev (map snd dropped) in
    let non_nan_idx := rev (map fst dropped) in
    let indexer := rev (map (fun k => nth k non_nan_idx O) (argsort non_nans)) in
    firstn (Z.to_nat n) (indexer ++ nan_index)
  else
    firstn (Z.to_nat n) (map fst (sort_by (fun a b => np_le b a) dropped) ++ nan_index).

(* ------------------------------------------------------------------ *)
(** ** Strings                                                         *)
(* ------------------------------------------------------------------ *)

Local Open Scope string_scope.

Definition lower_ascii (c : ascii) : ascii :=
  let n := nat_of_ascii c in
  if (65 <=? n)%nat && (n <=? 90)%nat then ascii_of_nat (n + 32) else c.

(** [str.lower()] on ASCII text. *)
Fixpoint str_lower (s : string) : string :=
  match s with
  | EmptyString => EmptyString
  | String c r => String (lower_ascii c) (str_lower r)
  end.

(** Python's [needle in haystack] on strings. *)
Definition str_in (needle hay : string) : bool :=
  match String.index 0 needle hay with Some _ => true | None => false end.

(** Case-insensitive substring test on ASCII letters: what
    [re.compile(pat, re.IGNORECASE).search(s) is not None] computes when
    [pat] and [s] are ASCII and [pat] has no regular-expression
    metacharacter (on other text [re] folds case by Unicode, matching for
    instance "k" with the Kelvin sign). *)
Definition contains_ci (pat s : string) : bool := str_in (str_lower pat) (str_lower s).

Fixpoint digits_rev (fuel : nat) (n : N) : list ascii :=
  match fuel with
  | O => []
  | S f =>
      let c := ascii_of_N (48 + N.modulo n 10) in
      if (n <? 10)%N then [c] else c :: digits_rev f (N.div n 10)
  end.

(** [str(z)] / f-string formatting of an int; an [n] has no more
    decimal digits than bits, so [N.size_nat n + 1] steps suffice. *)
Definition string_of_Z (z : Z) : string :=
  let s := string_of_list_ascii (rev (digits_rev (S (N.size_nat (Z.abs_N z))) (Z.abs_N z))) in
  if (z <? 0)%Z then "-" ++ s else s.

(** Truthiness of an optional string argument ([if category:]). *)
Definition truthy (o : option string) : option string :=
  match o with Some s => if String.eqb s "" then None else Some s | None => None end.

Local Close Scope string_scope.

(* ------------------------------------------------------------------ *)
(** ** The processed catalog and the product index                     *)
(* ------------------------------------------------------------------ *)

(** One row of the DataFrame built by [DataPreprocessor.process_dataset]
    (indexing/data_preprocessor.py), restricted to the columns read by
    the index.  The DataFrame keeps its default RangeIndex, so the row
    label of a product is its position, which also equals [product_id]
    when the catalog comes from [process_dataset]. *)
Record product : Type := mkProduct {
  product_id : Z;
  BrandName : string;
  Category : string;
  SellPrice_numeric : fval;
  Discount_numeric : fval;
  material : option string;
  sizes_list : list string;
  price_range : string;
  search_text : string
}.

(** A fitted [TfidfVectorizer] is modelled by its [transform] on one
    text.  Its rows are l2-normalised ([norm='l2'], the default), so
    sklearn's [cosine_similarity] of two such rows is their dot product. *)
Definition tfidf_transform : Type := string -> list Q.

(** The [TfidfVectorizer] object: [build_index] stores it before fitting
    it, so a failed fit leaves an unfitted one. *)
Inductive vectorizer : Type :=
| Unfitted
| Fitted (transform : tfidf_transform).

Record feature_weights_t : Type := mkWeights {
  w_text : Q; w_price : Q; w_category : Q
}.

(** [ProductIndex]; [price_scaler] is fitted by [build_index] but never
    read by a query, so it is left out. *)
Record ProductIndex : Type := mkIndex {
  products : option (list product);
  tfidf_vectorizer : option vectorizer;
  tfidf_matrix : option (list (list Q));
  feature_weights : feature_weights_t
}.

Definition default_weights : feature_weights_t := mkWeights (6 # 10) (2 # 10) (2 # 10).

(** [ProductIndex.__init__]. *)
Definition empty_index : ProductIndex := mkIndex None None None default_weights.

Fixpoint dot (u v : list Q) : Q :=
  match u, v with
  | a :: u', b :: v' => a * b + dot u' v'
  | _, _ => 0
  end.

(** [cosine_similarity(x, M)[0]] for l2-normalised (or zero) rows. *)
Definition cosine_similarity (x : list Q) (m : list (list Q)) : list fval :=
  map (fun r => Num (dot x r)) m.

Definition not_built : exn := ValueError "Index not built. Call build_index() first."%string.

(** sklearn's [NotFittedError] (a [ValueError]) from [transform]. *)
Definition not_fitted : exn := ValueError "The TF-IDF vectorizer is not fitted"%string.

Definition index_products (idx : ProductIndex) : res (list product) :=
  match products idx with
  | Some ps => Ok ps
  | None => Raise (AttributeError "'NoneType' object has no attribute 'iloc'"%string)
  end.

(** The loop body of [text_search]: keep row [i] when its similarity is positive. *)
Definition text_search_row (idx : ProductIndex) (similarities : list fval) (i : nat)
  : res (list (product * fval)) :=
  let s := nth i similarities NaN in
  if flt (Num 0) s then
    let* ps := index_products idx in
    let* p := iloc ps i in Ok [(p, s)]
  else Ok [].

(** [ProductIndex.text_search]. *)
Definition text_search (idx : ProductIndex) (query : string) (top_k : Z)
  : res (list (product * fval)) :=
  match tfidf_matrix idx with
  | None => Raise not_built
  | Some m =>
      match tfidf_vectorizer idx with
      | None => Raise (AttributeError "'NoneType' object has no attribute 'transform'"%string)
      | Some Unfitted => Raise not_fitted
      | Some (Fitted transform) =>
          let similarities := cosine_similarity (transform (str_lower query)) m in
          let top_indices := rev (py_slice_from (- top_k) (argsort similarities)) in
          let* hits := mapM (text_search_row idx similarities) top_indices in
          Ok (List.concat hits)
      end
  end.

(** The keyword arguments of [filter_products]. *)
Record filters : Type := mkFilters {
  f_category : option string;
  f_brand : option string;
  f_min_price : option fval;
  f_max_price : option fval;
  f_material : option string;
  f_size : option string;
  f_price_range : option string
}.

Definition no_filters : filters := mkFilters None None None None None None None.

Definition filter_step (o : option string) (keep : string -> product -> bool)
  (ps : list product) : list product :=
  match truthy o with Some s => filter (keep s) ps | None => ps end.

(** [df[df[col].str.contains(pat, case=False, na=False)]] under
    [if pat:]: the pattern is compiled (even for an empty frame), and a
    missing cell does not match. *)
Definition contains_step (o : option string) (col : product -> option string)
  (ps : list product) : res (list product) :=
  match truthy o with
  | None => Ok ps
  | Some pat =>
      match re_compile pat with
      | PatternError msg => Raise (ReError msg)
      | Pattern m => Ok (filter (fun p => match col p with Some s => m s | None => false end) ps)
      end
  end.

(** [ProductIndex.filter_products]: each supplied filter keeps a
    subsequence of the rows, in order. *)
Definition filter_products (idx : ProductIndex) (f : filters) : res (list product) :=
  match products idx with
  | None => Raise not_built
  | Some ps =>
      let* ps := contains_step (f_category f) (fun p => Some (Category p)) ps in
      let* ps := contains_step (f_brand f) (fun p => Some (BrandName p)) ps in
      let ps := match f_min_price f with
                | Some lo => filter (fun p => np_le lo (SellPrice_numeric p) && negb (fisnan (SellPrice_numeric p)) && negb (fisnan lo)) ps
                | None => ps end in
      let ps := match f_max_price f with
                | Some hi => filter (fun p => np_le (SellPrice_numeric p) hi && negb (fisnan (SellPrice_numeric p)) && negb (fisnan hi)) ps
                | None => ps end in
      let* ps := contains_step (f_material f) material ps in
      let ps := filter_step (f_size f)
                  (fun z p => existsb (fun s => str_in (str_lower z) (str_lower s)) (sizes_list p)) ps in
      let ps := filter_step (f_price_range f) (fun r p => String.eqb (price_range p) r) ps in
      Ok ps
  end.

Fixpoint find_pos {A} (f : A -> bool) (l : list A) : option nat :=
  match l with
  | [] => None
  | x :: xs => if f x then Some O else option_map S (find_pos f xs)
  end.

Fixpoint set_nth {A} (i : nat) (v : A) (l : list A) : list A :=
  match l, i with
  | [], _ => []
  | _ :: xs, O => v :: xs
  | x :: xs, S j => x :: set_nth j v xs
  end.

Definition not_found (product_id : Z) : exn :=
  ValueError ("Product with ID " ++ string_of_Z product_id ++ " not found")%string.

Record similar_hit : Type := mkHit {
  hit : product;
  similarity_score : fval;
  text_similarity : fval;
  price_similarity : fval;
  category_similarity : fval
}.

Fixpoint zip3 {A B C} (a : list A) (b : list B) (c : list C) : list (A * B * C) :=
  match a, b, c with
  | x :: a', y :: b', z :: c' => (x, y, z) :: zip3 a' b' c'
  | _, _, _ => []
  end.

(** [ProductIndex.get_similar_products]. *)
Definition get_similar_products (idx : ProductIndex) (pid : Z) (top_k : Z)
  : res (list similar_hit) :=
  match products idx with
  | None => Raise not_built
  | Some ps =>
      match find_pos (fun p => Z.eqb (product_id p) pid) ps with
      | None => Raise (not_found pid)
      | Some ref_idx =>
          let* ref_product := iloc ps ref_idx in
          match tfidf_matrix idx with
          | None => Raise (TypeError "'NoneType' object is not subscriptable"%string)
          | Some m =>
              let* reference_vector := iloc m ref_idx in
              let text_similarities := cosine_similarity reference_vector m in
              let ref_price := SellPrice_numeric ref_product in
              let price_diffs := map (fun p => fabs (fsub (SellPrice_numeric p) ref_price)) ps in
              let max_price_diff := series_max price_diffs in
              let price_similarities :=
                if flt (Num 0) max_price_diff
                then map (fun d => fsub (Num 1) (fdiv d max_price_diff)) price_diffs
                else map (fun _ => Num 1) ps in
              let ref_category := Category ref_product in
              let category_similarities :=
                map (fun p => if String.eqb (Category p) ref_category then Num 1 else Num 0) ps in
              let w := feature_weights idx in
              let combined :=
                map (fun '(t, p, c) =>
                       fadd (fadd (fmul (Num (w_text w)) t) (fmul (Num (w_price w)) p))
                            (fmul (Num (w_category w)) c))
                    (zip3 text_similarities price_similarities category_similarities) in
              (* Exclude the reference product itself *)
              let combined := set_nth ref_idx (Num 0) combined in
              let top_indices := rev (py_slice_from (- top_k) (argsort combined)) in
              mapM (fun i =>
                      let* p := iloc ps i in
                      Ok (mkHit p (nth i combined NaN) (nth i text_similarities NaN)
                                (nth i price_similarities NaN) (nth i category_similarities NaN)))
                   top_indices
          end
      end
  end.

(** [ProductIndex.get_product_by_id]. *)
Definition get_product_by_id (idx : ProductIndex) (pid : Z) : res (option product) :=
  match products idx with
  | None => Raise not_built
  | Some ps => Ok (find (fun p => Z.eqb (product_id p) pid) ps)
  end.

(** [DataFrame.head(n)]: a negative [n] drops the last [-n] rows. *)
Definition py_head {A} (n : Z) (xs : list A) : list A :=
  if (n <? 0)%Z then firstn (Z.to_nat (Z.of_nat (List.length xs) + n)) xs
  else firstn (Z.to_nat n) xs.

(** [ProductIndex.get_products_by_category]. *)
Definition get_products_by_category (idx : ProductIndex) (category : string) (limit : Z)
  : res (list product) :=
  let* ps := filter_products idx (mkFilters (Some category) None None None None None None) in
  Ok (py_head limit ps).

(** The trending score of one row:
    [Discount_numeric.fillna(0) * 0.7 + (1 / (SellPrice_numeric.fillna(1000) / 1000)) * 0.3]. *)
Definition trending_score (p : product) : fval :=
  fadd (fmul (fillna (Discount_numeric p) (Num 0)) (Num (7 # 10)))
       (fmul (fdiv (Num 1) (fdiv (fillna (SellPrice_numeric p) (Num 1000)) (Num 1000)))
             (Num (3 # 10))).

(** [ProductIndex.get_trending_products]: the rows with their score. *)
Definition get_trending_products (idx : ProductIndex) (limit : Z)
  : res (list (product * fval)) :=
  match products idx with
  | None => Raise not_built
  | Some ps =>
      let trending_scores := map trending_score ps in
      let top_indices := nlargest limit trending_scores in
      mapM (fun i => let* p := iloc ps i in Ok (p, nth i trending_scores NaN)) top_indices
  end.

(* ------------------------------------------------------------------ *)
(** ** The search engine facade                                        *)
(* ------------------------------------------------------------------ *)

(** [SearchEngine]; its [preprocessor] is read only by
    [get_data_summary], which no query below uses, so it is left out. *)
Record SearchEngine : Type := mkEngine {
  is_ready : bool;
  index : option ProductIndex
}.

(** [SearchEngine.__init__]. *)
Definition new_engine : SearchEngine := mkEngine false None.

Definition not_initialized : exn := ValueError "Search engine not initialized."%string.
Definition not_initialized_search : exn :=
  ValueError "Search engine not initialized. Call initialize_from_csv() first."%string.

(** The precondition errors of the facade and of the index. *)
Definition is_precondition_error (e : exn) : bool :=
  match e with
  | ValueError m => String.prefix "Search engine not initialized." m
                    || String.eqb m "Index not built. Call build_index() first."
  | _ => false
  end.

(** The characters of Python's [str.isspace], UTF-8 encoded. *)
Definition py_whitespace : list (list nat) :=
  [[9]; [10]; [11]; [12]; [13]; [28]; [29]; [30]; [31]; [32];
   [194; 133]; [194; 160]; [225; 154; 128];
   [226; 128; 128]; [226; 128; 129]; [226; 128; 130]; [226; 128; 131];
   [226; 128; 132]; [226; 128; 133]; [226; 128; 134]; [226; 128; 135];
   [226; 128; 136]; [226; 128; 137]; [226; 128; 138];
   [226; 128; 168]; [226; 128; 169]; [226; 128; 175]; [226; 129; 159];
   [227; 128; 128]]%nat.

Fixpoint codes_prefix (w : list nat) (cs : list ascii) : bool :=
  match w, cs with
  | [], _ => true
  | n :: w', c :: cs' => Nat.eqb (nat_of_ascii c) n && codes_prefix w' cs'
  | _ :: _, [] => false
  end.

(** Whether [cs] is a sequence of whitespace characters; UTF-8 is
    prefix-free, so at most one of them starts [cs]. *)
Fixpoint blank_go (fuel : nat) (cs : list ascii) : bool :=
  match cs with
  | [] => true
  | _ :: _ =>
      match fuel with
      | O => false
      | S f =>
          match find (fun w => codes_prefix w cs) py_whitespace with
          | Some w => blank_go f (skipn (List.length w) cs)
          | None => false
          end
      end
  end.

(** [not query.strip()]. *)
Definition is_blank (s : string) : bool :=
  blank_go (String.length s) (list_ascii_of_string s).

Definition engine_index (e : SearchEngine) : res ProductIndex :=
  match index e with
  | Some i => Ok i
  | None => Raise (AttributeError "'NoneType' object has no attribute"%string)
  end.

Definition with_index (e : SearchEngine) (i : ProductIndex) : SearchEngine :=
  mkEngine (is_ready e) (Some i).

Definition set_rows (i : ProductIndex) (ps : option (list product)) (m : option (list (list Q)))
  : ProductIndex :=
  mkIndex ps (tfidf_vectorizer i) m (feature_weights i).

(** A result row of [search]: the product and, from a text query, its
    [similarity_score]. *)
Definition search_row : Type := product * option fval.

(** [SearchEngine.search], threading the engine: the index's [products]
    and [tfidf_matrix] are overwritten for the duration of the text
    search and written back afterwards. *)
Definition search (query : string) (f : filters) (top_k : Z) (e : SearchEngine)
  : res (list search_row) * SearchEngine :=
  if negb (is_ready e) then (Raise not_initialized_search, e) else
  match engine_index e with
  | Raise ex => (Raise ex, e)
  | Ok idx =>
      match filter_products idx f with
      | Raise ex => (Raise ex, e)
      | Ok [] => (Ok [], e)
      | Ok filtered_products =>
          if negb (is_blank query) then
            let original_products := products idx in
            let original_tfidf_matrix := tfidf_matrix idx in
            match tfidf_vectorizer idx with
            | None => (Raise (AttributeError "'NoneType' object has no attribute 'transform'"%string), e)
            | Some Unfitted => (Raise not_fitted, e)
            | Some (Fitted transform) =>
                let temp_tfidf_matrix := map (fun p => transform (search_text p)) filtered_products in
                let idx1 := set_rows idx (Some filtered_products) (Some temp_tfidf_matrix) in
                let e1 := with_index e idx1 in
                match text_search idx1 query top_k with
                | Raise ex => (Raise ex, e1)
                | Ok results =>
                    let idx2 := set_rows idx1 original_products original_tfidf_matrix in
                    (Ok (map (fun '(p, s) => (p, Some s)) results), with_index e1 idx2)
                end
            end
          else (Ok (map (fun p => (p, None)) (py_head top_k filtered_products)), e)
      end
  end.

(** [Series.unique().tolist()]: first-appearance order. *)
Fixpoint unique_strings (seen : list string) (xs : list string) : list string :=
  match xs with
  | [] => []
  | x :: r => if existsb (String.eqb x) seen then unique_strings seen r
              else x :: unique_strings (x :: seen) r
  end.

Definition count_of (x : string) (xs : list string) : Z :=
  Z.of_nat (List.length (filter (String.eqb x) xs)).

(** [Series.value_counts().to_dict()]: counts, largest first, equal
    counts in first-appearance order. *)
Definition value_counts (xs : list string) : list (string * Z) :=
  let u := unique_strings [] xs in
  let counted := map (fun x => (x, count_of x xs)) u in
  map snd (sort_by (fun a b => Z.leb (snd b) (snd a)) (enumerate_from 0 counted)).

(** The query surface of the facade. *)
Inductive query_op : Type :=
| QSearch (query : string) (f : filters) (top_k : Z)
| QRecommend (product_id : Z) (top_k : Z)
| QDetails (product_id : Z)
| QTrending (limit : Z)
| QBrowse (category : string) (limit : Z)
| QCategories
| QBrands
| QPriceRanges.

Inductive answer : Type :=
| ARows (rows : list search_row)
| AHits (hits : list similar_hit)
| ADetail (p : option product)
| ATrending (rows : list (product * fval))
| AProducts (rows : list product)
| ANames (names : list string)
| ACounts (counts : list (string * Z)).

Definition res_map {A B} (f : A -> B) (r : res A) : res B :=
  match r with Ok a => Ok (f a) | Raise e => Raise e end.

(** A read-only method: guard on [is_ready], then read the index. *)
Definition guarded {A} (k : ProductIndex -> res A) (e : SearchEngine) : res A * SearchEngine :=
  if negb (is_ready e) then (Raise not_initialized, e)
  else (let* idx := engine_index e in k idx, e).

(** [self.index.products[col]]: subscripting a missing DataFrame. *)
Definition column {A} (f : product -> A) (idx : ProductIndex) : res (list A) :=
  match products idx with
  | Some ps => Ok (map f ps)
  | None => Raise (TypeError "'NoneType' object is not subscriptable"%string)
  end.

(** The methods [search], [get_recommendations], [get_product_details],
    [get_trending_products], [browse_by_category], [get_categories],
    [get_brands] and [get_price_ranges] of [SearchEngine]. *)
Definition run_query (op : query_op) (e : SearchEngine) : res answer * SearchEngine :=
  match op with
  | QSearch q f k => let '(r, e') := search q f k e in (res_map ARows r, e')
  | QRecommend pid k => guarded (fun i => res_map AHits (get_similar_products i pid k)) e
  | QDetails pid => guarded (fun i => res_map ADetail (get_product_by_id i pid)) e
  | QTrending l => guarded (fun i => res_map ATrending (get_trending_products i l)) e
  | QBrowse c l => guarded (fun i => res_map AProducts (get_products_by_category i c l)) e
  | QCategories => guarded (fun i => res_map (fun cs => ANames (unique_strings [] cs)) (column Category i)) e
  | QBrands => guarded (fun i => res_map (fun bs => ANames (unique_strings [] bs)) (column BrandName i)) e
  | QPriceRanges => guarded (fun i => res_map (fun rs => ACounts (value_counts rs)) (column price_range i)) e
  end.

(** [SearchEngine.smart_search]: keyword detection on the lowercased
    query, then [search] with the detected filters. *)
Definition category_keywords : list (string * string) := [
  ("dress", "Western Wear"); ("western", "Western Wear");
  ("indian", "Indian Wear"); ("ethnic", "Indian Wear");
  ("lingerie", "Lingerie & Nightwear"); ("nightwear", "Lingerie & Nightwear");
  ("shoes", "Footwear"); ("footwear", "Footwear"); ("boots", "Footwear"); ("sandals", "Footwear");
  ("watch", "Watches"); ("jewelry", "Jewellery"); ("jewellery", "Jewellery");
  ("perfume", "Fragrance"); ("fragrance", "Fragrance")
]%string.

Definition smart_materials : list string :=
  ["cotton"; "silk"; "denim"; "wool"; "polyester"; "linen"]%string.

Definition detect_category (query_lower : string) : option string :=
  option_map snd (find (fun kc => str_in (fst kc) query_lower) category_keywords).

Definition detect_price_range (query_lower : string) : option string :=
  if existsb (fun w => str_in w query_lower) ["cheap"; "budget"; "affordable"]%string
  then Some "budget"%string
  else if existsb (fun w => str_in w query_lower) ["premium"; "expensive"; "luxury"]%string
  then Some "luxury"%string
  else if str_in "mid" query_lower then Some "mid-range"%string
  else None.

Definition detect_material (query_lower : string) : option string :=
  find (fun m => str_in m query_lower) smart_materials.

Definition smart_search (query : string) (top_k : Z) (e : SearchEngine)
  : res (list search_row) * SearchEngine :=
  if negb (is_ready e) then (Raise not_initialized, e) else
  let query_lower := str_lower query in
  search query (mkFilters (detect_category query_lower) None None None
                          (detect_material query_lower) None (detect_price_range query_lower))
         top_k e.

Section Build.

(** Fitting [TfidfVectorizer(min_df=2, max_df=0.8, ...)] on the search
    texts ([fit_transform] is [fit] followed by [transform]).  It raises
    a [ValueError] when the vocabulary is empty, when [max_df] keeps fewer
    documents than [min_df] (at most 2 documents), or when pruning leaves
    no term. *)
Variable fit : list string -> res tfidf_transform.

(** [ProductIndex.build_index] on a fresh [ProductIndex()]: the table
    and the unfitted vectorizer are stored before [fit_transform] runs,
    so when it raises the matrix stays [None]. *)
Definition build_index (processed_data : list product) : res unit * ProductIndex :=
  match fit (map search_text processed_data) with
  | Raise ex => (Raise ex, mkIndex (Some processed_data) (Some Unfitted) None default_weights)
  | Ok v =>
      (Ok tt, mkIndex (Some processed_data) (Some (Fitted v))
                      (Some (map (fun p => v (search_text p)) processed_data)) default_weights)
  end.

(** [SearchEngine.initialize_from_csv], given the rows
    [process_dataset] returns for the CSV: [self.index] is replaced by a
    fresh index before it is built, and [is_ready] is set only once
    [build_index] has returned. *)
Definition initialize_from_csv (processed_data : list product) (rebuild_index : bool)
  (e : SearchEngine) : res unit * SearchEngine :=
  if rebuild_index then
    match build_index processed_data with
    | (Ok _, idx) => (Ok tt, mkEngine true (Some idx))
    | (Raise ex, idx) => (Raise ex, mkEngine (is_ready e) (Some idx))
    end
  else (Ok tt, mkEngine true (Some empty_index)).

End Build.

End Runtime.

(* ------------------------------------------------------------------ *)
(** ** A sample catalog                                                *)
(* ------------------------------------------------------------------ *)

(** Three processed rows, as [process_dataset] numbers them.  Rows 0 and
    1 have the same search text; row 2 shares no kept term with them. *)
Definition row0 : product :=
  mkProduct 0 "zara" "Western Wear" (Num 10) (Num 20) (Some "cotton"%string) ["Medium"%string]
            "mid-range" "zara red shirt western wear cotton shirt".
Definition row1 : product :=
  mkProduct 1 "mango" "Western Wear" (Num 12) NaN (Some "cotton"%string) ["Large"%string]
            "mid-range" "mango red shirt western wear cotton shirt".
Definition row2 : product :=
  mkProduct 2 "bata" "Footwear" (Num 40) (Num 50) None []
            "luxury" "bata leather boots footwear".

(** The fitted vectorizer over these rows: [min_df=2] and [max_df=0.8]
    keep only the terms shared by rows 0 and 1 (brand and boot terms
    occur once), so every text maps onto the one direction of those
    shared terms, or to zero. *)
Definition sample_transform : tfidf_transform :=
  fun t => if str_in "shirt" t then [1] else [0].

Definition sample_index : ProductIndex :=
  mkIndex (Some [row0; row1; row2]) (Some (Fitted sample_transform))
          (Some (map (fun p => sample_transform (search_text p)) [row0; row1; row2]))
          default_weights.

Definition sample_engine : SearchEngine := mkEngine true (Some sample_index).

(** The regular-expression metacharacters of Python's [re]. *)
Definition re_meta (c : ascii) : bool :=
  existsb (Ascii.eqb c) ["."; "^"; "$"; "*"; "+"; "?"; "{"; "}"; "["; "]"; "\"; "|"; "("; ")"]%char.

(** An ASCII pattern without metacharacter matches itself literally. *)
Definition literal_pattern (pat : string) : bool :=
  forallb (fun c => (nat_of_ascii c <? 128)%nat && negb (re_meta c)) (list_ascii_of_string pat).

(** A sample [re.compile] for the ASCII sample catalog: literal
    patterns are compiled to the case-insensitive substring test; the
    others are refused. *)
Definition literal_re (pat : string) : re_compiled :=
  if literal_pattern pat then Pattern (contains_ci pat)
  else PatternError "pattern outside the sample"%string.

(** One admissible [qs_ties]: equal keys left in position order. *)
Definition stable_ties (xs : list fval) (i : nat) : nat := i.


(* ================================================================== *)
(** * Price cleaning and buckets ([preprocessor.py])                  *)
(* ================================================================== *)

Module Preprocess.

Local Open Scope string_scope.

(** [DataPreprocessor._price_bucket]. *)
Definition price_bucket (price : fval) : string :=
  if fisnan price then "unknown"
  else if flt price (Num 5) then "budget"
  else if flt price (Num 15) then "mid-range"
  else if flt price (Num 30) then "premium"
  else "luxury".

(** [indexing/data_preprocessor.py]: [DataPreprocessor.categorize_price_range]. *)
Definition categorize_price_range (price : fval) : string :=
  if fisnan price then "unknown"
  else if flt price (Num 5) then "budget"
  else if flt price (Num 15) then "mid-range"
  else if flt price (Num 30) then "premium"
  else "luxury".

Definition code_is (n : nat) (c : ascii) : bool := Nat.eqb (nat_of_ascii c) n.

(** One character of the pattern under [re.IGNORECASE] (ASCII folding). *)
Definition ci (l : ascii) (c : ascii) : bool := Ascii.eqb (lower_ascii c) l.

(** [\s] on ASCII text. *)
Definition re_space (c : ascii) : bool :=
  match nat_of_ascii c with
  | (9 | 10 | 11 | 12 | 13 | 28 | 29 | 30 | 31 | 32)%nat => true
  | _ => false
  end.

Fixpoint lead (ps : list (ascii -> bool)) (s : list ascii) : bool :=
  match ps, s with
  | [], _ => true
  | p :: ps', c :: s' => p c && lead ps' s'
  | _ :: _, [] => false
  end.

(** Length of the match of [CURRENCY_RE = r"[₹]|Rs\.?|INR|,|\s"]
    (IGNORECASE) at the start of [s], alternatives tried left to right;
    [0] when none matches.  Text is UTF-8: the rupee sign is E2 82 B9. *)
Definition currency_match (s : list ascii) : nat :=
  if lead [code_is 226; code_is 130; code_is 185] s then 3
  else if lead [ci "r"; ci "s"; code_is 46] s then 3
  else if lead [ci "r"; ci "s"] s then 2
  else if lead [ci "i"; ci "n"; ci "r"] s then 3
  else if lead [code_is 44] s then 1
  else if lead [re_space] s then 1
  else 0.

Fixpoint strip_go (fuel : nat) (s : list ascii) : list ascii :=
  match fuel with
  | O => s
  | S f =>
      match s with
      | [] => []
      | c :: r =>
          match currency_match s with
          | O => c :: strip_go f r
          | n => strip_go f (skipn n s)
          end
      end
  end.

(** [.str.replace(CURRENCY_RE, "", regex=True)]; every match is at
    least one character long, so [length s] steps suffice. *)
Definition strip_currency (s : string) : string :=
  string_of_list_ascii (strip_go (String.length s) (list_ascii_of_string s)).

(** [.str.replace("\n", " ", regex=False)]. *)
Definition replace_newline (s : string) : string :=
  string_of_list_ascii
    (map (fun c => if code_is 10 c then " "%char else c) (list_ascii_of_string s)).

Definition is_digit (c : ascii) : bool :=
  (48 <=? nat_of_ascii c)%nat && (nat_of_ascii c <=? 57)%nat.

Fixpoint digits_prefix (s : list ascii) : list ascii :=
  match s with
  | c :: r => if is_digit c then c :: digits_prefix r else []
  | [] => []
  end.

Fixpoint first_digits (s : list ascii) : option (list ascii) :=
  match s with
  | [] => None
  | c :: r => if is_digit c then Some (digits_prefix s) else first_digits r
  end.

Definition digits_value (ds : list ascii) : Z :=
  fold_left (fun acc c => (acc * 10 + (Z.of_nat (nat_of_ascii c) - 48))%Z) ds 0%Z.

(** [.str.extract(r"(\d+)", expand=False).astype(float)] on one cell. *)
Definition extract_discount (s : string) : fval :=
  match first_digits (list_ascii_of_string s) with
  | Some ds => Num (inject_Z (digits_value ds))
  | None => NaN
  end.

(** numpy's round-half-to-even to an integer. *)
Definition round_half_even (x : Q) : Z :=
  let n := Qfloor x in
  let fr := x - inject_Z n in
  if Qlt_bool fr (1 # 2) then n
  else if Qlt_bool (1 # 2) fr then (n + 1)%Z
  else if Z.even n then n else (n + 1)%Z.

(** [Series.round(2)] on one cell. *)
Definition round2 (x : fval) : fval :=
  match x with
  | Num q => Num (inject_Z (round_half_even (q * 100)) / 100)
  | v => v
  end.

(** A raw CSV row, each price cell as its [astype(str)] text
    (a missing cell reads ["nan"]).  Only the price columns are kept. *)
Record raw_record : Type := mkRaw {
  MRP : string;
  SellPrice : string;
  Discount : string
}.

(** A processed row (column names lowercased), price columns only. *)
Record row : Type := mkRow {
  product_id : Z;
  mrp : fval;
  sell_price : fval;
  discount_pct : fval;
  price_range : string
}.

Section Process.

(** [pd.to_numeric(..., errors="coerce")] on one cell: NaN when the text
    does not parse. *)
Variable to_numeric : string -> fval.
Variable currency_conversion_rate : fval.

(** [(x * currency_conversion_rate).round(2)]. *)
Definition convert (x : fval) : fval := round2 (fmul x currency_conversion_rate).

(** [_clean_prices] on the row at index [i] (both price columns present),
    then the [price_range] and [product_id] columns of [process]. *)
Definition clean_row (i : nat) (r : raw_record) : row :=
  let mrp := convert (to_numeric (strip_currency (replace_newline (MRP r)))) in
  let sp := convert (to_numeric (strip_currency (SellPrice r))) in
  let sell := fillna sp mrp in
  mkRow (Z.of_nat i) mrp sell (extract_discount (Discount r)) (price_bucket sell).

(** [process]: row-wise cleaning on the default index, then
    [dropna(subset=["sell_price"])]. *)
Definition process (raw : list raw_record) : list row :=
  filter (fun r => negb (fisnan (sell_price r)))
         (map (fun '(i, r) => clean_row i r) (enumerate_from 0 raw)).

End Process.

End Preprocess.

(** A sample raw price table and parser, for evaluating the pipeline. *)
Module PriceSample.

Local Open Scope string_scope.

(** Parses a non-empty run of ASCII digits; anything else is NaN. *)
Definition to_numeric (s : string) : fval :=
  let cs := list_ascii_of_string s in
  if (0 <? List.length cs)%nat && forallb Preprocess.is_digit cs
  then Num (inject_Z (Preprocess.digits_value cs)) else NaN.

Definition rate : fval := Num (95 # 10000).

Definition raw0 : Preprocess.raw_record := Preprocess.mkRaw "₹2,000" "nan" "50% off".
Definition raw1 : Preprocess.raw_record := Preprocess.mkRaw "Rs. 1,000" "Rs. 500" "".
Definition raw2 : Preprocess.raw_record := Preprocess.mkRaw "nan" "nan" "".

Definition raw : list Preprocess.raw_record := [raw0; raw1; raw2].

End PriceSample.

(* ================================================================== *)
(** * Product-type taxonomy ([preprocessor.py])                       *)
(* ================================================================== *)

Module Taxonomy.

Local Open Scope string_scope.

(** [TAXONOMY]: canonical label and its aliases, in the dict's order. *)
Definition TAXONOMY : list (string * list string) := [
  ("blazer", ["blazer"; "notched lapel"; "lapel blazer"]);
  ("coat", ["coat"; "overcoat"; "trench coat"; "peacoat"; "pea coat"]);
  ("poncho/cape", ["poncho"; "cape"]);
  ("jacket", ["jacket"; "bomber"; "puffer"; "denim jacket"; "biker jacket"]);
  ("sweatshirt", ["sweatshirt"; "sweat shirt"; "crew neck fleece"; "zip-up hoodie"; "zip through"]);
  ("hoodie", ["hoodie"]);
  ("co-ord set", ["co-ord"; "co ord"; "coordinate set"; "co-ordinates"]);
  ("western set", ["evening wear set"; "women's set"; "womens set"]);
  ("ethnic set", ["suit set"; "indian wear set"; "kurta set"; "straight suit set"; "ethnic set"; "clothing set"; "coordinate set"]);
  ("dress", ["dress"]);
  ("gown", ["gown"; "maxi"]);
  ("jumpsuit", ["jump suit"; "jumpsuit"]);
  ("romper", ["romper"; "playsuit"]);
  ("kaftan", ["kaftan"]);
  ("dungarees", ["dungarees"; "overalls"]);
  ("top", ["top"; "camisole"; "tank"; "crop top"; "bodysuit"]);
  ("tshirt", ["t-shirt"; "tshirt"; "tee"]);
  ("shirt", ["shirt"; "button down"; "button-down"; "oxford"]);
  ("blouse", ["blouse"]);
  ("sweater", ["sweater"; "pullover"; "jumper"]);
  ("cardigan", ["cardigan"; "shrug"]);
  ("kurta", ["kurta"; "kurti"]);
  ("tunic", ["tunic"]);
  ("pants", ["pant"; "pants"; "chino"; "chinos"; "formal pants"; "casual pants"; "paper bag pants"]);
  ("trousers", ["trouser"; "trousers"]);
  ("track pants", ["track pants"; "trackpants"; "tracks"]);
  ("joggers", ["jogger"; "joggers"; "jogger pants"; "jogger fit"]);
  ("leggings", ["legging"; "leggings"; "churidar"]);
  ("tights", ["tight"; "tights"]);
  ("jeggings", ["jeggings"; "denim leggings"]);
  ("treggings", ["treggings"]);
  ("jeans", ["jean"; "jeans"; "denim"]);
  ("shorts", ["shorts"; "hot pant"; "hot pants"]);
  ("capris", ["capri"; "capris"]);
  ("culottes", ["culottes"]);
  ("palazzo", ["palazzo"]);
  ("dhoti pants", ["dhoti pant"; "dhoti pants"]);
  ("skirt", ["skirt"; "maxi skirt"]);
  ("thermal pants", ["thermal pant"; "thermal pants"; "thermal bottoms"; "thermal leggings"]);
  ("saree", ["sari"; "saree"]);
  ("lehenga", ["lehenga"]);
  ("salwar", ["salwar"; "shalwar"]);
  ("salwar suit", ["salwar suit"; "unstitched suit"]);
  ("choli", ["choli"]);
  ("dupatta", ["dupatta"]);
  ("sharara", ["sharara"]);
  ("festive set", ["festive set"]);
  ("pyjamas", ["pyjama"; "pyjamas"; "pajama"; "pajamas"]);
  ("nightdress", ["night dress"; "nightdress"; "nighty"; "nightie"]);
  ("sleep set", ["sleep set"; "lounge set"]);
  ("lounge pants", ["lounge pant"; "lounge pants"]);
  ("tracksuit", ["track suit"; "tracksuit"]);
  ("robe", ["robe"]);
  ("chemise", ["chemise"]);
  ("babydoll", ["baby doll"; "babydoll"]);
  ("sleepsuit", ["sleepsuit"; "sleep suit"]);
  ("monokini", ["monokini"]);
  ("swim set", ["swim set"]);
  ("shapewear", ["shapewear"; "tummy tucker"; "tummy control"; "thigh slimmer"; "waist cincher"; "hi waist slimmer"]);
  ("handbag", ["handbag"; "hand bag"]);
  ("wallet", ["wallet"]);
  ("clutch", ["clutch"]);
  ("backpack", ["backpack"; "back pack"]);
  ("tote", ["tote"]);
  ("belt", ["belt"]);
  ("slides", ["slides"; "slide"]);
  ("loafers", ["loafers"; "loafer"]);
  ("mules", ["mules"; "mule"]);
  ("wedges", ["wedges"; "wedge"]);
  ("platforms", ["platforms"; "platform"]);
  ("brogues", ["brogues"; "oxford"; "oxfords"]);
  ("bellies", ["bellies"; "ballet flats"; "ballet flat"]);
  ("peep toes", ["peep toes"; "peep toe"]);
  ("clogs", ["clogs"; "clog"]);
  ("floaters", ["floaters"; "floater"]);
  ("slip-ons", ["slip-ons"; "slip ons"; "slip on"]);
  ("shoes", ["shoes"; "shoe"]);
  ("heels", ["heels"; "heel"; "stiletto"; "stilettos"; "pump"; "pumps"]);
  ("flats", ["flats"; "flat"; "ballerina"; "ballerinas"]);
  ("boots", ["boots"; "boot"]);
  ("sandals", ["sandals"; "sandal"]);
  ("sneakers", ["sneakers"; "sneaker"; "trainers"; "trainer"]);
  ("slippers", ["slippers"; "slipper"; "flip flops"; "flip-flops"; "flip flop"]);
  ("bracelet", ["bracelet"]);
  ("necklace", ["necklace"]);
  ("earrings", ["earring"; "earrings"; "stud"; "studs"; "jhumka"; "jhumki"; "jhumkas"; "jhumkis"]);
  ("ring", ["ring"; "rings"]);
  ("pendant", ["pendant"]);
  ("bangle", ["bangle"; "kada"; "kadas"; "bangles"]);
  ("bralette", ["bralette"]);
  ("bra", ["bra"; "brassiere"]);
  ("panties", ["panty"; "panties"; "briefs"; "knickers"; "thong"; "thongs"; "hipster"; "hipsters"]);
  ("lingerie", ["lingerie"; "intimates"]);
  ("scarf", ["scarf"; "scarves"]);
  ("stole", ["stole"; "stoles"]);
  ("muffler", ["muffler"; "mufflers"]);
  ("cap", ["cap"; "baseball cap"; "caps"]);
  ("face mask", ["face mask"; "mask"; "n95"; "reusable mask"]);
  ("socks", ["sock"; "socks"; "no show socks"; "ankle socks"]);
  ("thermal", ["thermal"; "thermals"])
].

(** One element of a compiled alias pattern. *)
Inductive item : Type :=
| Lit (c : ascii)   (* an (escaped) literal character, under IGNORECASE *)
| Sep               (* [[\s-]+], greedy *)
| Plural            (* [(?:e?s)?], greedy *)
| WB.               (* [\b] *)

(** Character classes on ASCII text; bytes above 127 are neither letters
    nor word characters in the model. *)
Definition is_alpha (c : ascii) : bool :=
  let n := nat_of_ascii c in
  ((65 <=? n) && (n <=? 90))%nat || ((97 <=? n) && (n <=? 122))%nat.

Definition is_word (c : ascii) : bool :=
  is_alpha c || Preprocess.is_digit c || Preprocess.code_is 95 c.

Fixpoint lstrip (cs : list ascii) : list ascii :=
  match cs with
  | c :: r => if Preprocess.re_space c then lstrip r else cs
  | [] => []
  end.

(** [str.strip()]. *)
Definition strip (cs : list ascii) : list ascii := rev (lstrip (rev (lstrip cs))).

(** [s.endswith(("s", "S"))]. *)
Definition ends_with_s (cs : list ascii) : bool :=
  match rev cs with c :: _ => Preprocess.ci "s" c | [] => false end.

(** The whitespace [re.escape] backslash-escapes: space, tab, newline,
    carriage return, vertical tab and form feed. *)
Definition escaped_space (c : ascii) : bool :=
  match nat_of_ascii c with (32 | 9 | 10 | 11 | 12 | 13)%nat => true | _ => false end.

(** [_wb(s)].  [re.escape] keeps every character of the alias literal and
    writes a whitespace character as a backslash and itself, which the
    substitution turns into [[\s-]+].  The plural test splits on the raw
    text [[\\s-]+] (two backslashes), which never occurs in the result, so
    it asks whether the whole alias is alphabetic. *)
Definition wb (s : string) : list item :=
  let cs := strip (list_ascii_of_string s) in
  let body := map (fun c => if escaped_space c then Sep else Lit c) cs in
  let plural := negb (ends_with_s cs) && (0 <? List.length cs)%nat && forallb is_alpha cs in
  app [WB] (app body (app (if plural then [Plural] else []) [WB])).

Definition word_at (t : list ascii) (i : nat) : bool :=
  match nth_error t i with Some c => is_word c | None => false end.

(** [\b] at position [i]. *)
Definition boundary (t : list ascii) (i : nat) : bool :=
  xorb (match i with O => false | S j => word_at t j end) (word_at t i).

Definition lit_at (t : list ascii) (i : nat) (c : ascii) : bool :=
  match nth_error t i with
  | Some d => Ascii.eqb (lower_ascii d) (lower_ascii c)
  | None => false
  end.

Definition sep_char (c : ascii) : bool := Preprocess.re_space c || Preprocess.code_is 45 c.

(** Length of the longest run of [[\s-]] characters at the front. *)
Fixpoint sep_run (t : list ascii) : nat :=
  match t with
  | c :: r => if sep_char c then S (sep_run r) else O
  | [] => O
  end.

(** Backtracking match of a sequence of items at position [i] of [t];
    the end position of the first match in [re]'s order. *)
Fixpoint match_items (t : list ascii) (its : list item) (i : nat) : option nat :=
  match its with
  | [] => Some i
  | Lit c :: r => if lit_at t i c then match_items t r (S i) else None
  | WB :: r => if boundary t i then match_items t r i else None
  | Plural :: r =>
      match (if lit_at t i "e" && lit_at t (S i) "s"
             then match_items t r (S (S i)) else None) with
      | Some e => Some e
      | None =>
          match (if lit_at t i "s" then match_items t r (S i) else None) with
          | Some e => Some e
          | None => match_items t r i
          end
      end
  | Sep :: r =>
      (fix back (k : nat) : option nat :=
         match k with
         | O => None
         | S k' =>
             match match_items t r (i + k) with
             | Some e => Some e
             | None => back k'
             end
         end) (sep_run (skipn i t))
  end.

(** An alternation [a1|a2|...]: the first alternative that matches. *)
Fixpoint match_alts (t : list ascii) (alts : list (list item)) (i : nat) : option nat :=
  match alts with
  | [] => None
  | a :: r =>
      match match_items t a i with
      | Some e => Some e
      | None => match_alts t r i
      end
  end.

(** [CANONICAL_PATTERNS]: one alternation of [_wb(alias)] per canonical. *)
Definition CANONICAL_PATTERNS : list (string * list (list item)) :=
  map (fun '(canon, aliases) => (canon, map wb aliases)) TAXONOMY.

(** [pat.finditer(text)] as spans; no alias pattern matches the empty
    string, so the scan resumes at the end of each match. *)
Fixpoint finditer_go (fuel : nat) (pat : list (list item)) (t : list ascii) (i : nat)
    : list (nat * nat) :=
  match fuel with
  | O => []
  | S f =>
      if (List.length t <? i)%nat then []
      else
        match match_alts t pat i with
        | Some e => (i, e) :: finditer_go f pat t (if (e =? i)%nat then S i else e)
        | None => finditer_go f pat t (S i)
        end
  end.

Definition finditer (pat : list (list item)) (t : list ascii) : list (nat * nat) :=
  finditer_go (S (S (List.length t))) pat t 0.

(** Step 1 of [_extract_product_type]: [(canon, span)] candidates. *)
Definition candidates (t : list ascii) : list (string * (nat * nat)) :=
  flat_map (fun '(canon, pat) => map (fun sp => (canon, sp)) (finditer pat t))
           CANONICAL_PATTERNS.

(** Python's [<] on strings (code point order). *)
Fixpoint str_ltb (a b : list ascii) : bool :=
  match a, b with
  | [], [] => false
  | [], _ :: _ => true
  | _ :: _, [] => false
  | x :: a', y :: b' =>
      if (nat_of_ascii x <? nat_of_ascii y)%nat then true
      else if (nat_of_ascii x =? nat_of_ascii y)%nat then str_ltb a' b'
      else false
  end.

(** [key(x) <= key(y)] for [key = (-(end - start), start, canon)]. *)
Definition cand_le (x y : string * (nat * nat)) : bool :=
  let '(cx, (ax, bx)) := x in
  let '(cy, (ay, by')) := y in
  let lx := (bx - ax)%nat in
  let ly := (by' - ay)%nat in
  (ly <? lx)%nat ||
  ((lx =? ly)%nat &&
   ((ax <? ay)%nat ||
    ((ax =? ay)%nat && negb (str_ltb (list_ascii_of_string cy) (list_ascii_of_string cx))))).

(** Step 2: [candidates.sort(key=...)], a stable sort. *)
Definition sort_candidates (cs : list (string * (nat * nat))) : list (string * (nat * nat)) :=
  map snd (sort_by cand_le (enumerate_from 0 cs)).

(** Step 3: keep a candidate when its span overlaps no kept span. *)
Fixpoint resolve (cs : list (string * (nat * nat))) (occupied : list (nat * nat))
    : list string :=
  match cs with
  | [] => []
  | (canon, (a, b)) :: r =>
      if existsb (fun '(x0, x1) => negb ((b <=? x0) || (x1 <=? a)))%nat occupied
      then resolve r occupied
      else canon :: resolve r (app occupied [(a, b)])
  end.

Definition picked (text : string) : list string :=
  resolve (sort_candidates (candidates (list_ascii_of_string text))) [].

(** [re.sub(r"\s+", " ", s)]. *)
Fixpoint collapse_ws (prev_ws : bool) (cs : list ascii) : list ascii :=
  match cs with
  | [] => []
  | c :: r =>
      if Preprocess.re_space c
      then (if prev_ws then collapse_ws true r else " "%char :: collapse_ws true r)
      else c :: collapse_ws false r
  end.

(** [" " + re.sub(r"\s+", " ", text.lower()) + " "]. *)
Definition padded (text : string) : string :=
  " " ++ string_of_list_ascii (collapse_ws false (list_ascii_of_string (str_lower text))) ++ " ".

(** A Python set of strings, by its members in insertion order. *)
Definition mem (x : string) (l : list string) : bool := existsb (String.eqb x) l.

Definition set_add (x : string) (l : list string) : list string :=
  if mem x l then l else app l [x].

Definition set_discard (x : string) (l : list string) : list string :=
  filter (fun y => negb (String.eqb y x)) l.

(** [set(l)]. *)
Definition set_of (l : list string) : list string :=
  fold_left (fun acc x => set_add x acc) l [].

Definition bottoms : list string :=
  ["salwar"; "palazzo"; "trousers"; "leggings"; "pants"; "dhoti pants"; "sharara"].

Definition specific : list string :=
  ["heels"; "wedges"; "sandals"; "boots"; "sneakers"; "peep toes"; "mules"; "loafers";
   "platforms"; "clogs"; "slides"; "floaters"; "bellies"; "brogues"].

Definition generic : list string := ["slip-ons"; "shoes"; "flats"].

Section Rules.

(** Iteration order of a Python set ([list(s)], [for x in s]) given its
    members in insertion order.  CPython orders a set of strings by their
    hashes, which are randomised per process, so the order is a
    parameter. *)
Variable set_order : list string -> list string.

(** [DataPreprocessor._post_rules]. *)
Definition post_rules (text : string) (labels : list string) : list string :=
  let t := padded text in
  let L := set_of labels in
  let L := if str_in " tracksuit " t || str_in " track suit " t
           then set_add "tracksuit" (set_discard "track pants" L) else L in
  let L := if str_in " denim jacket " t then set_discard "jeans" L else L in
  let L := if mem "kurta" L && (mem "dupatta" L || mem "choli" L)
              && existsb (fun b => mem b L) bottoms
           then set_add "salwar suit"
                  (filter (fun x => negb (mem x (app ["kurta"; "dupatta"; "choli"] bottoms))) L)
           else if mem "kurta" L && existsb (fun b => mem b L) bottoms
           then set_add "ethnic set" L
           else L in
  let L := if existsb (fun s => mem s L) specific
           then filter (fun x => negb (mem x generic)) L else L in
  let L := if mem "necklace" L && mem "pendant" L then set_discard "pendant" L else L in
  let ordered := set_of (filter (fun x => mem x L) labels) in
  fold_left (fun acc x => if mem x acc then acc else app acc [x]) (set_order L) ordered.

(** [DataPreprocessor._extract_product_type]. *)
Definition extract_product_type (text : string) : list string :=
  let t := padded text in
  let labels := set_of (picked text) in
  let labels := if str_in " track suit " t || str_in " tracksuit " t
                then set_add "tracksuit" (set_discard "track pants" labels) else labels in
  let labels := if str_in " denim jacket " t then set_discard "jeans" labels else labels in
  post_rules text (set_order labels).

End Rules.

End Taxonomy.

(** [x] is ranked before [y]: its key is [le], and strictly so or it
    comes earlier in the input. *)
Definition before {A : Type} (le : A -> A -> bool) (x y : nat * A) : Prop :=
  le (snd x) (snd y) = true /\ (le (snd y) (snd x) = false \/ (fst x < fst y)%nat).


(** The rows of a hit list, by [product_id]. *)
Definition hit_ids (r : res (list similar_hit)) : res (list Z) :=
  res_map (map (fun h => product_id (hit h))) r.



(* ------------------------------------------------------------------ *)
(** ** Filters as one predicate                                        *)
(* ------------------------------------------------------------------ *)

Definition keep_opt (o : option string) (k : string -> bool) : bool :=
  match truthy o with Some s => k s | None => true end.

Section Accepts.
Variable re_compile : string -> re_compiled.

(** A [str.contains] filter on one cell. *)
Definition keep_re (o : option string) (cell : option string) : bool :=
  match truthy o with
  | None => true
  | Some pat =>
      match re_compile pat, cell with
      | Pattern m, Some s => m s
      | _, _ => false
      end
  end.

(** The given [str.contains] patterns all compile. *)
Definition pattern_ok (o : option string) : bool :=
  match truthy o with
  | None => true
  | Some pat => match re_compile pat with Pattern _ => true | PatternError _ => false end
  end.

Definition patterns_ok (f : filters) : bool :=
  pattern_ok (f_category f) && pattern_ok (f_brand f) && pattern_ok (f_material f).

Definition accepts (f : filters) (p : product) : bool :=
  keep_re (f_category f) (Some (Category p)) &&
  keep_re (f_brand f) (Some (BrandName p)) &&
  match f_min_price f with
  | Some lo => np_le lo (SellPrice_numeric p) && negb (fisnan (SellPrice_numeric p)) && negb (fisnan lo)
  | None => true end &&
  match f_max_price f with
  | Some hi => np_le (SellPrice_numeric p) hi && negb (fisnan (SellPrice_numeric p)) && negb (fisnan hi)
  | None => true end &&
  keep_re (f_material f) (material p) &&
  keep_opt (f_size f) (fun z => existsb (fun s => str_in (str_lower z) (str_lower s)) (sizes_list p)) &&
  keep_opt (f_price_range f) (fun r => String.eqb (price_range p) r).

End Accepts.

Definition notin_seen (seen : list string) (y : string) : bool := negb (existsb (String.eqb y) seen).

Module Sizes.

Local Open Scope string_scope.

Fixpoint prefixb (p s : list ascii) : bool :=
  match p, s with
  | [], _ => true
  | a :: p', c :: s' => Ascii.eqb a c && prefixb p' s'
  | _ :: _, [] => false
  end.

(** [s.split(sep)] for a non-empty [sep]: [cur] holds the current piece
    reversed, [skip] the characters of a matched separator still to pass. *)
Fixpoint split_go (sep : list ascii) (skip : nat) (cur s : list ascii) : list (list ascii) :=
  match s with
  | [] => [rev cur]
  | c :: r =>
      match skip with
      | S k => split_go sep k cur r
      | O => if prefixb sep s then rev cur :: split_go sep (List.length sep - 1) [] r
             else split_go sep O (c :: cur) r
      end
  end.

Definition str_split (sep : string) (s : list ascii) : list (list ascii) :=
  split_go (list_ascii_of_string sep) O [] s.

(** [indexing/data_preprocessor.py]: [DataPreprocessor.parse_sizes];
    [None] is a missing cell. *)
Definition parse_sizes (size_string : option string) : res (list string) :=
  match size_string with
  | None => Ok []
  | Some s =>
      if str_in "Size:" s then
        match nth_error (str_split "Size:" (list_ascii_of_string s)) 1 with
        | Some sizes_part =>
            Ok (map (fun size => string_of_list_ascii (Taxonomy.strip size)) (str_split "," sizes_part))
        | None => Raise IndexError
        end
      else Ok []
  end.

End Sizes.

Module SizeTokens.

Local Open Scope string_scope.

(** [str.upper()] on ASCII text. *)
Definition upper_ascii (c : ascii) : ascii :=
  let n := nat_of_ascii c in
  if (97 <=? n)%nat && (n <=? 122)%nat then ascii_of_nat (n - 32) else c.

Fixpoint str_upper (s : string) : string :=
  match s with
  | EmptyString => EmptyString
  | String c r => String (upper_ascii c) (str_upper r)
  end.

(** The literal alternatives of [SIZE_TOKEN_RE], in their order. *)
Definition SIZE_TOKEN_ALTS : list string :=
  ["XXS"; "XS"; "S"; "M"; "L"; "XL"; "XXL"; "XXXL"; "3XL"; "4XL"].

Definition SIZE_NORMALIZE : list (string * string) :=
  [("xxs", "XXS"); ("xs", "XS"); ("s", "S"); ("m", "M"); ("l", "L"); ("xl", "XL");
   ("xxl", "XXL"); ("xxxl", "3XL"); ("3xl", "3XL"); ("4xl", "4XL")].

(** [d.get(k, default)] on a dict given by its items. *)
Definition dict_get (k default : string) (d : list (string * string)) : string :=
  match find (fun kv => String.eqb (fst kv) k) d with
  | Some kv => snd kv
  | None => default
  end.

Definition digit_at (t : list ascii) (i : nat) : bool :=
  match nth_error t i with Some c => Preprocess.is_digit c | None => false end.

(** [SIZE_TOKEN_RE = r"\b(XXS|XS|S|M|L|XL|XXL|XXXL|3XL|4XL|\d{2})\b"]
    (IGNORECASE) at position [i]: the end of the first alternative with
    which the whole pattern matches. *)
Definition size_token_at (t : list ascii) (i : nat) : option nat :=
  match Taxonomy.match_alts t
          (map (fun a => Taxonomy.WB :: app (map Taxonomy.Lit (list_ascii_of_string a)) [Taxonomy.WB])
               SIZE_TOKEN_ALTS) i with
  | Some e => Some e
  | None =>
      if Taxonomy.boundary t i && digit_at t i && digit_at t (S i) && Taxonomy.boundary t (S (S i))
      then Some (S (S i)) else None
  end.

(** [SIZE_TOKEN_RE.findall(text)]: group 1 of each match, left to right;
    no alternative matches the empty string. *)
Fixpoint findall_go (fuel : nat) (t : list ascii) (i : nat) : list (list ascii) :=
  match fuel with
  | O => []
  | S f =>
      if (List.length t <=? i)%nat then []
      else
        match size_token_at t i with
        | Some e => firstn (e - i) (skipn i t) :: findall_go f t e
        | None => findall_go f t (S i)
        end
  end.

Definition findall (t : list ascii) : list (list ascii) :=
  findall_go (S (List.length t)) t 0.

(** [SIZE_NORMALIZE.get(t_low, t.upper())]. *)
Definition normalize (tok : list ascii) : string :=
  let s := string_of_list_ascii tok in
  dict_get (str_lower s) (str_upper s) SIZE_NORMALIZE.

(** [key(a) <= key(b)] for [key = lambda x: (len(x), x)]. *)
Definition size_key_le (a b : string) : bool :=
  (String.length a <? String.length b)%nat ||
  ((String.length a =? String.length b)%nat &&
   negb (Taxonomy.str_ltb (list_ascii_of_string b) (list_ascii_of_string a))).

Section ParseOne.

(** Iteration order of [set(norm)]. *)
Variable set_order : list string -> list string.

(** [DataPreprocessor._parse_sizes_series.parse_one]; [None] is a missing
    cell. *)
Definition parse_one (s : option string) : list string :=
  match s with
  | None => []
  | Some s =>
      let norm := map normalize (findall (list_ascii_of_string s)) in
      map snd (sort_by size_key_le (enumerate_from 0 (set_order (Taxonomy.set_of norm))))
  end.

End ParseOne.

End SizeTokens.

Module Categories.

Local Open Scope string_scope.

Fixpoint join (sep : list ascii) (ps : list (list ascii)) : list ascii :=
  match ps with
  | [] => []
  | [p] => p
  | p :: r => app p (app sep (join sep r))
  end.

(** [s.replace(old, new)] for a non-empty [old], as [new.join(s.split(old))]. *)
Definition py_replace (old new : string) (s : list ascii) : list ascii :=
  join (list_ascii_of_string new) (Sizes.split_go (list_ascii_of_string old) O [] s).

(** [s.split()]: the runs of non-whitespace characters. *)
Fixpoint words_go (cur : list ascii) (s : list ascii) : list (list ascii) :=
  match s with
  | [] => match cur with [] => [] | _ => [rev cur] end
  | c :: r =>
      if Preprocess.re_space c
      then match cur with [] => words_go [] r | _ => rev cur :: words_go [] r end
      else words_go (c :: cur) r
  end.

(** [str.capitalize()] on ASCII text. *)
Definition capitalize (w : list ascii) : list ascii :=
  match w with
  | [] => []
  | c :: r => SizeTokens.upper_ascii c :: map lower_ascii r
  end.

Definition category_mapping : list (string * string) :=
  [("westernwear-women", "Western Wear"); ("indianwear-women", "Indian Wear");
   ("lingerie&nightwear-women", "Lingerie & Nightwear"); ("footwear-women", "Footwear");
   ("watches-women", "Watches"); ("jewellery-women", "Jewellery");
   ("fragrance-women", "Fragrance")].

(** [s.endswith(suffix)]. *)
Definition ends_with (suffix s : list ascii) : bool := Sizes.prefixb (rev suffix) (rev s).

(** [indexing/data_preprocessor.py]: [DataPreprocessor.clean_categories];
    [None] is a missing cell. *)
Definition clean_categories (category : option string) : string :=
  match category with
  | None => "Other"
  | Some category =>
      let cleaned := Taxonomy.strip (list_ascii_of_string (str_lower category)) in
      let cleaned := Taxonomy.collapse_ws false cleaned in
      let cleaned := py_replace " - " "-" cleaned in
      let cleaned := py_replace "_" "-" cleaned in
      match find (fun kv => String.eqb (fst kv) (string_of_list_ascii cleaned)) category_mapping with
      | Some kv => snd kv
      | None =>
          let cleaned := if ends_with (list_ascii_of_string "-women") cleaned
                         then firstn (List.length cleaned - 6) cleaned else cleaned in
          let cleaned := py_replace "&" " and " cleaned in
          let cleaned := py_replace "-" " " cleaned in
          let cleaned := join [" "%char] (map capitalize (words_go [] cleaned)) in
          match cleaned with
          | [] => "Other"
          | _ => string_of_list_ascii cleaned
          end
      end
  end.

End Categories.

Definition no_digit (p : ascii -> bool) : bool :=
  forallb (fun n => implb (p (ascii_of_nat n)) (negb (Preprocess.is_digit (ascii_of_nat n)))) (seq 0 256).

Definition digit_chars : list ascii := ["0"; "1"; "2"; "3"; "4"; "5"; "6"; "7"; "8"; "9"]%char.

(* ================================================================== *)
(** * Proofs                                                           *)
(* ================================================================== *)

(** ** The stable sort *)

Section SortFacts.
Context {A : Type} (le : A -> A -> bool).
Hypothesis le_total : forall a b, le a b = false -> le b a = true.
Hypothesis le_trans : forall a b c, le a b = true -> le b c = true -> le a c = true.

Lemma insert_by_perm x l : Permutation (insert_by le x l) (x :: l).
Proof.
  induction l as [|y ys IH]; simpl; [reflexivity|].
  destruct (le (snd x) (snd y)); [reflexivity|].
  rewrite IH. apply perm_swap.
Qed.

Lemma sort_by_perm l : Permutation (sort_by le l) l.
Proof.
  induction l as [|x xs IH]; simpl; [reflexivity|].
  rewrite insert_by_perm. now apply perm_skip.
Qed.

Lemma insert_by_sorted x l :
  StronglySorted (before le) l -> Forall (fun y => (fst x < fst y)%nat) l ->
  StronglySorted (before le) (insert_by le x l).
Proof.
  induction l as [|y ys IH]; intros Hs Hf; simpl.
  - repeat constructor.
  - apply StronglySorted_inv in Hs as [Hs Hy].
    inversion Hf as [|? ? Hxy Hfys]; subst.
    destruct (le (snd x) (snd y)) eqn:E.
    + constructor; [constructor; assumption|].
      constructor.
      * split; [exact E|]. destruct (le (snd y) (snd x)); auto.
      * eapply Forall_impl; [|apply Forall_forall; intros z Hz; exact (conj (proj1 (Forall_forall _ _) Hy z Hz) (proj1 (Forall_forall _ _) Hfys z Hz))].
        intros z [[Hyz _] Hxz]. split; [eauto|].
        destruct (le (snd z) (snd x)); auto.
    + constructor; [apply IH; assumption|].
      eapply Permutation_Forall; [symmetry; apply insert_by_perm|].
      constructor; [|exact Hy].
      split; [apply le_total; exact E|left; exact E].
Qed.

Lemma In_enumerate_from k (xs : list A) i a :
  In (i, a) (enumerate_from k xs) -> (k <= i)%nat /\ nth_error xs (i - k) = Some a.
Proof.
  revert k. induction xs as [|x xs IH]; intros k H; simpl in H; [contradiction|].
  destruct H as [H|H].
  - inversion H; subst. rewrite Nat.sub_diag. auto.
  - apply IH in H as [H1 H2]. split; [lia|].
    replace (i - k)%nat with (S (i - S k)) by lia. exact H2.
Qed.

Lemma enumerate_from_In k (xs : list A) j a :
  nth_error xs j = Some a -> In (k + j, a)%nat (enumerate_from k xs).
Proof.
  revert k j. induction xs as [|x xs IH]; intros k j H; destruct j; simpl in *; try discriminate.
  - left. inversion H; subst. f_equal; lia.
  - right. replace (k + S j)%nat with (S k + j)%nat by lia. now apply IH.
Qed.

Lemma sort_by_sorted k (xs : list A) : StronglySorted (before le) (sort_by le (enumerate_from k xs)).
Proof.
  revert k. induction xs as [|x xs IH]; intros k; simpl; [constructor|].
  apply insert_by_sorted; [apply IH|].
  eapply Permutation_Forall; [symmetry; apply sort_by_perm|].
  apply Forall_forall. intros [i a] Hi. apply In_enumerate_from in Hi. simpl. lia.
Qed.

Lemma enumerate_from_fst k (xs : list A) : map fst (enumerate_from k xs) = seq k (List.length xs).
Proof.
  revert k. induction xs as [|x xs IH]; intros k; simpl; [reflexivity|].
  f_equal. apply IH.
Qed.

Lemma enumerate_from_NoDup k (xs : list A) : NoDup (map fst (enumerate_from k xs)).
Proof. rewrite enumerate_from_fst. apply seq_NoDup. Qed.

(** Whatever the input order, the result is sorted by [le]. *)
Lemma insert_by_sorted_snd x l :
  StronglySorted (fun a b => le (snd a) (snd b) = true) l ->
  StronglySorted (fun a b => le (snd a) (snd b) = true) (insert_by le x l).
Proof.
  induction l as [|y ys IH]; intros Hs; simpl.
  - repeat constructor.
  - apply StronglySorted_inv in Hs as [Hs Hy].
    destruct (le (snd x) (snd y)) eqn:E.
    + constructor; [constructor; assumption|].
      constructor; [exact E|].
      eapply Forall_impl; [|exact Hy]. intros z Hz. eauto.
    + constructor; [apply IH; exact Hs|].
      eapply Permutation_Forall; [symmetry; apply insert_by_perm|].
      constructor; [apply le_total; exact E|exact Hy].
Qed.

Lemma sort_by_sorted_snd l : StronglySorted (fun a b => le (snd a) (snd b) = true) (sort_by le l).
Proof. induction l as [|x l IH]; simpl; [constructor|]. apply insert_by_sorted_snd, IH. Qed.

End SortFacts.

(** ** Orders on floats *)

Lemma np_le_total a b : np_le a b = false -> np_le b a = true.
Proof.
  destruct a, b; simpl; try discriminate; try reflexivity.
  intros H. apply Qle_bool_iff. apply Qlt_le_weak. apply Qnot_le_lt.
  intros H'. apply Qle_bool_iff in H'. congruence.
Qed.

Lemma np_le_trans a b c : np_le a b = true -> np_le b c = true -> np_le a c = true.
Proof.
  destruct a, b, c; simpl; try discriminate; try reflexivity.
  rewrite !Qle_bool_iff. apply Qle_trans.
Qed.




(** ** Strongly sorted lists *)

Section Strong.
Context {B : Type} (R : B -> B -> Prop).




End Strong.


(** ** Sorting with an unspecified order of ties *)

Lemma map_snd_enumerate {B} k (xs : list B) : map snd (enumerate_from k xs) = xs.
Proof.
  revert k. induction xs as [|x xs IH]; intros k; simpl; [reflexivity|]. f_equal. apply IH.
Qed.

Lemma length_enumerate {B} k (xs : list B) : List.length (enumerate_from k xs) = List.length xs.
Proof. unfold enumerate_from. rewrite length_combine, length_seq. lia. Qed.


Lemma In_firstn_l {B} n (l : list B) x : In x (firstn n l) -> In x l.
Proof. intros H. rewrite <- (firstn_skipn n l). apply in_or_app. left. exact H. Qed.

Lemma SS_impl {B} (R1 R2 : B -> B -> Prop) l :
  (forall a b, R1 a b -> R2 a b) -> StronglySorted R1 l -> StronglySorted R2 l.
Proof.
  intros H. induction 1 as [|a l Hs IH Hf]; constructor; [exact IH|].
  eapply Forall_impl; [|exact Hf]. exact (H a).
Qed.







Lemma tie_order_perm key e : Permutation (tie_order key e) e.
Proof.
  unfold tie_order. eapply Permutation_trans; [apply Permutation_map, sort_by_perm|].
  rewrite map_snd_enumerate. reflexivity.
Qed.

Lemma perm_enum_entry {B} (S : list (nat * B)) xs x :
  Permutation S (enumerate_from 0 xs) -> In x S -> nth_error xs (fst x) = Some (snd x).
Proof.
  intros HP H. apply (Permutation_in _ HP) in H.
  destruct x as [i a]. apply In_enumerate_from in H as [_ H].
  rewrite Nat.sub_0_r in H. exact H.
Qed.


Lemma perm_enum_length {B} (S : list (nat * B)) xs :
  Permutation S (enumerate_from 0 xs) -> List.length S = List.length xs.
Proof. intros HP. rewrite (Permutation_length HP). apply length_enumerate. Qed.

(** [argsort] ranks the positions by their values, ascending; equal
    values are in position order for at most 16 values. *)
Lemma argsort_spec qs xs :
  exists S, argsort qs xs = map fst S /\ Permutation S (enumerate_from 0 xs) /\
    StronglySorted (fun a b => np_le (snd a) (snd b) = true) S /\
    ((List.length xs <= 16)%nat -> StronglySorted (before np_le) S).
Proof.
  unfold argsort.
  eexists. split; [reflexivity|]. split; [|split].
  - eapply Permutation_trans; [apply sort_by_perm|].
    destruct (_ <=? 16)%nat; [reflexivity|apply tie_order_perm].
  - apply (sort_by_sorted_snd np_le np_le_total np_le_trans).
  - intros H. apply Nat.leb_le in H. rewrite H. apply (sort_by_sorted np_le np_le_total np_le_trans).
Qed.

Lemma argsort_length qs xs : List.length (argsort qs xs) = List.length xs.
Proof.
  destruct (argsort_spec qs xs) as [S [-> [HP _]]]. rewrite length_map. exact (perm_enum_length S xs HP).
Qed.




(** ** Running the per-row loop of [text_search] *)




Lemma filter_id {B} (f : B -> bool) l : (forall x, In x l -> f x = true) -> filter f l = l.
Proof.
  induction l as [|a l IH]; intros H; simpl; [reflexivity|].
  rewrite H by (left; reflexivity). f_equal. apply IH. intros x Hx. apply H. right. exact Hx.
Qed.

(** ** C2: the ranking of [text_search] *)


(** C1 (code bug).  Forcing the reference's combined score to 0 does not
    keep it out of the recommendations: with the default [top_k = 10]
    on a three-row catalog every row is returned, the reference last;
    and with [top_k = 2] the reference (row 2, score 0) is still
    returned, tied with row 0 (score 0) and placed before it by the
    argsort. *)
Theorem get_similar_products_returns_reference (qs_ties : list fval -> nat -> nat) :
  hit_ids (get_similar_products qs_ties sample_index 0 10) = Ok [1; 2; 0]%Z /\
  hit_ids (get_similar_products qs_ties sample_index 2 2) = Ok [1; 2]%Z.
Proof. split; vm_compute; reflexivity. Qed.



(** ** The facade: preconditions, lookups and the swapped index *)

(** C7.  Before the engine is ready, every query of the surface raises
    a precondition error and leaves the engine as it was. *)
Theorem query_before_ready_fails (qs_ties : list fval -> nat -> nat) (re_compile : string -> re_compiled)
  (op : query_op) (e : SearchEngine) :
  is_ready e = false ->
  exists ex, run_query qs_ties re_compile op e = (Raise ex, e) /\ is_precondition_error ex = true.
Proof.
  intros H.
  destruct op; unfold run_query, guarded, search; rewrite H; simpl;
    eexists; split; reflexivity.
Qed.

Lemma query_before_ready_fails_witness :
  exists ex, run_query stable_ties literal_re (QTrending 20) new_engine = (Raise ex, new_engine)
             /\ is_precondition_error ex = true.
Proof. apply query_before_ready_fails. reflexivity. Defined.

Lemma find_none_absent (pid : Z) (ps : list product) :
  ~ In pid (map product_id ps) -> find (fun p => Z.eqb (product_id p) pid) ps = None.
Proof.
  induction ps as [|p ps IH]; intros H; simpl; [reflexivity|].
  destruct (Z.eqb_spec (product_id p) pid) as [E|E].
  - exfalso. apply H. left. exact E.
  - apply IH. intros H'. apply H. right. exact H'.
Qed.

Lemma find_pos_none_absent (pid : Z) (ps : list product) :
  ~ In pid (map product_id ps) -> find_pos (fun p => Z.eqb (product_id p) pid) ps = None.
Proof.
  induction ps as [|p ps IH]; intros H; simpl; [reflexivity|].
  destruct (Z.eqb_spec (product_id p) pid) as [E|E].
  - exfalso. apply H. left. exact E.
  - rewrite IH; [reflexivity|]. intros H'. apply H. right. exact H'.
Qed.

(** C8 (counterexample).  On the ready sample engine, the detail lookup
    of the unknown id 7 returns [None]: no error is signalled (the
    lookup uses neither the sort nor the regex engine). *)
Lemma product_details_unknown_counterexample :
  (fun qs_ties re_compile => run_query qs_ties re_compile (QDetails 7) sample_engine)
    = (fun _ _ => (Ok (ADetail None), sample_engine)).
Proof. vm_compute. reflexivity. Qed.

(** C8 (corrected).  For a ready engine whose index holds a product
    table, and an id absent from it, [get_product_details] returns
    [None] without raising, while [get_recommendations] raises
    [ValueError("Product with ID <id> not found")]: the same exception
    class as the precondition error, not one of its messages. *)
Theorem unknown_id_lookups (qs_ties : list fval -> nat -> nat) (re_compile : string -> re_compiled)
  (e : SearchEngine) (idx : ProductIndex) (ps : list product) (pid top_k : Z) :
  is_ready e = true -> index e = Some idx -> products idx = Some ps ->
  ~ In pid (map product_id ps) ->
  run_query qs_ties re_compile (QDetails pid) e = (Ok (ADetail None), e) /\
  run_query qs_ties re_compile (QRecommend pid top_k) e = (Raise (not_found pid), e) /\
  is_precondition_error (not_found pid) = false.
Proof.
  intros Hr Hi Hp Hn.
  unfold run_query, guarded, engine_index. rewrite Hr, Hi. simpl.
  unfold get_product_by_id, get_similar_products. rewrite Hp.
  rewrite find_none_absent, find_pos_none_absent by exact Hn.
  split; [reflexivity|]. split; reflexivity.
Qed.

Lemma unknown_id_lookups_witness :
  run_query stable_ties literal_re (QDetails 7) sample_engine = (Ok (ADetail None), sample_engine) /\
  run_query stable_ties literal_re (QRecommend 7 10) sample_engine = (Raise (not_found 7), sample_engine) /\
  is_precondition_error (not_found 7) = false.
Proof.
  apply (unknown_id_lookups stable_ties literal_re sample_engine sample_index [row0; row1; row2]);
    [reflexivity | reflexivity | reflexivity | simpl; lia].
Defined.

(** C10.  Whenever [search] returns normally, the engine, and so the
    index's product table and term-weight matrix, are exactly those it
    was called with; hence a following call sees the same base state. *)
Theorem search_restores_index (qs_ties : list fval -> nat -> nat) (re_compile : string -> re_compiled)
  (query : string) (f : filters) (top_k : Z) (e : SearchEngine) (rows : list search_row) :
  fst (search qs_ties re_compile query f top_k e) = Ok rows ->
  snd (search qs_ties re_compile query f top_k e) = e /\
  (forall q' f' k', search qs_ties re_compile q' f' k' (snd (search qs_ties re_compile query f top_k e))
                    = search qs_ties re_compile q' f' k' e).
Proof.
  intros H.
  enough (E : snd (search qs_ties re_compile query f top_k e) = e) by (split; [exact E|intros; rewrite E; reflexivity]).
  revert H. unfold search.
  destruct e as [ready [idx|]]; destruct ready; simpl; try (intros; reflexivity).
  destruct (filter_products re_compile idx f) as [[|p ps]|ex]; simpl; try (intros; reflexivity).
  destruct (negb (is_blank query)); simpl; try (intros; reflexivity).
  destruct (tfidf_vectorizer idx) as [[|tr]|] eqn:Htr; simpl; try (intros; reflexivity).
  destruct (text_search _ _ query top_k) as [results|ex]; simpl; [|discriminate].
  intros _. destruct idx; reflexivity.
Qed.

Lemma search_restores_index_witness :
  snd (search stable_ties literal_re "red shirt" no_filters 2 sample_engine) = sample_engine.
Proof.
  eapply (search_restores_index stable_ties literal_re "red shirt" no_filters 2 sample_engine).
  vm_compute. reflexivity.
Defined.

(** ** C9: the trending heuristic *)








(* ------------------------------------------------------------------ *)
(** ** Price cleaning and buckets                                      *)
(* ------------------------------------------------------------------ *)

Lemma Qlt_bool_true (a b : Q) : a < b -> Qlt_bool a b = true.
Proof.
  intros H. unfold Qlt_bool. destruct (Qle_bool b a) eqn:E; [|reflexivity].
  apply Qle_bool_iff in E. exfalso. exact (Qlt_not_le _ _ H E).
Qed.

Lemma Qlt_bool_false (a b : Q) : b <= a -> Qlt_bool a b = false.
Proof.
  intros H. unfold Qlt_bool. apply Qle_bool_iff in H. rewrite H. reflexivity.
Qed.

Lemma process_In (to_numeric : string -> fval) (rate : fval)
    (raw : list Preprocess.raw_record) (r : Preprocess.row) :
  In r (Preprocess.process to_numeric rate raw) <->
  fisnan (Preprocess.sell_price r) = false /\
  exists i x, nth_error raw i = Some x /\ r = Preprocess.clean_row to_numeric rate i x.
Proof.
  unfold Preprocess.process. rewrite filter_In, in_map_iff. split.
  - intros [[[j y] [Hr Hj]] Hn].
    change (Preprocess.clean_row to_numeric rate j y = r) in Hr.
    apply In_enumerate_from in Hj. destruct Hj as [_ Hj].
    rewrite Nat.sub_0_r in Hj.
    split; [destruct (fisnan (Preprocess.sell_price r)); [discriminate|reflexivity]|].
    exists j, y. split; [exact Hj|symmetry; exact Hr].
  - intros [Hn [i [x [Hx ->]]]]. split; [|rewrite Hn; reflexivity].
    exists (i, x). split; [reflexivity|].
    apply (enumerate_from_In 0 raw i x Hx).
Qed.

(** C5: in the processed catalog, the sell price of the raw row at index
    [i] is its sell-price text, stripped of currency marks, parsed,
    multiplied by the rate and rounded to 2 decimals; when that is missing
    (an unparseable text parses to NaN) it is the converted MRP; the row is
    kept exactly when the result is not missing, so no kept row has a
    missing sell price. *)
Theorem clean_prices_sell_price (to_numeric : string -> fval) (rate : fval)
    (raw : list Preprocess.raw_record) :
  let out := Preprocess.process to_numeric rate raw in
  let conv s := Preprocess.convert rate (to_numeric s) in
  (forall s, to_numeric s = NaN -> conv s = NaN) /\
  (forall r, In r out -> fisnan (Preprocess.sell_price r) = false) /\
  (forall i x, nth_error raw i = Some x ->
     let sp := conv (Preprocess.strip_currency (Preprocess.SellPrice x)) in
     let mrp := conv (Preprocess.strip_currency (Preprocess.replace_newline (Preprocess.MRP x))) in
     (fisnan sp = false ->
        exists r, In r out /\ Preprocess.product_id r = Z.of_nat i /\
                  Preprocess.sell_price r = sp) /\
     (fisnan sp = true -> fisnan mrp = false ->
        exists r, In r out /\ Preprocess.product_id r = Z.of_nat i /\
                  Preprocess.sell_price r = mrp) /\
     (fisnan sp = true -> fisnan mrp = true ->
        forall r, In r out -> Preprocess.product_id r <> Z.of_nat i)) /\
  (forall r, In r out -> exists i x, nth_error raw i = Some x /\
        r = Preprocess.clean_row to_numeric rate i x).
Proof.
  intros out conv. split; [|split; [|split]].
  - intros s Hs. unfold conv, Preprocess.convert. rewrite Hs. reflexivity.
  - intros r Hr. apply process_In in Hr. apply Hr.
  - intros i x Hx sp mrp.
    assert (Hsell : Preprocess.sell_price (Preprocess.clean_row to_numeric rate i x)
                    = fillna sp mrp) by reflexivity.
    assert (Hid : Preprocess.product_id (Preprocess.clean_row to_numeric rate i x)
                  = Z.of_nat i) by reflexivity.
    split; [|split].
    + intros Hsp. exists (Preprocess.clean_row to_numeric rate i x).
      assert (Hf : fillna sp mrp = sp) by (unfold fillna; rewrite Hsp; reflexivity).
      split; [|split; [exact Hid|rewrite Hsell; exact Hf]].
      apply process_In. split; [rewrite Hsell, Hf; exact Hsp|].
      exists i, x. split; [exact Hx|reflexivity].
    + intros Hsp Hm. exists (Preprocess.clean_row to_numeric rate i x).
      assert (Hf : fillna sp mrp = mrp) by (unfold fillna; rewrite Hsp; reflexivity).
      split; [|split; [exact Hid|rewrite Hsell; exact Hf]].
      apply process_In. split; [rewrite Hsell, Hf; exact Hm|].
      exists i, x. split; [exact Hx|reflexivity].
    + intros Hsp Hm r Hr Heq. apply process_In in Hr.
      destruct Hr as [Hn [j [y [Hy ->]]]].
      change (Z.of_nat j = Z.of_nat i) in Heq. apply Nat2Z.inj in Heq. subst j.
      rewrite Hx in Hy. injection Hy as <-.
      rewrite Hsell in Hn. unfold fillna in Hn. rewrite Hsp in Hn.
      rewrite Hm in Hn. discriminate.
  - intros r Hr. apply process_In in Hr. apply Hr.
Qed.

Lemma clean_prices_sell_price_witness :
  (exists r, In r (Preprocess.process PriceSample.to_numeric PriceSample.rate PriceSample.raw) /\
             Preprocess.product_id r = 0%Z /\ Preprocess.sell_price r = Num (1900 # 100)) /\
  (exists r, In r (Preprocess.process PriceSample.to_numeric PriceSample.rate PriceSample.raw) /\
             Preprocess.product_id r = 1%Z /\ Preprocess.sell_price r = Num (475 # 100)) /\
  (forall r, In r (Preprocess.process PriceSample.to_numeric PriceSample.rate PriceSample.raw) ->
             Preprocess.product_id r <> 2%Z).
Proof.
  destruct (clean_prices_sell_price PriceSample.to_numeric PriceSample.rate PriceSample.raw)
    as [_ [_ [H _]]].
  destruct (H 0%nat PriceSample.raw0 eq_refl) as [_ [H0 _]].
  destruct (H 1%nat PriceSample.raw1 eq_refl) as [H1 _].
  destruct (H 2%nat PriceSample.raw2 eq_refl) as [_ [_ H2]].
  split; [|split].
  - destruct (H0 ltac:(vm_compute; reflexivity) ltac:(vm_compute; reflexivity))
      as [r [Hr [Hid Hs]]].
    exists r. split; [exact Hr|split; [exact Hid|rewrite Hs; vm_compute; reflexivity]].
  - destruct (H1 ltac:(vm_compute; reflexivity)) as [r [Hr [Hid Hs]]].
    exists r. split; [exact Hr|split; [exact Hid|rewrite Hs; vm_compute; reflexivity]].
  - exact (H2 ltac:(vm_compute; reflexivity) ltac:(vm_compute; reflexivity)).
Defined.

(** C6: [price_range] is [_price_bucket] of the kept [sell_price] (and the
    indexing module's [categorize_price_range] is the same function): below
    5 budget, from 5 below 15 mid-range, from 15 below 30 premium, from 30
    luxury, NaN unknown; on the listed sample prices it gives the listed
    buckets. *)
Theorem price_range_thresholds :
  (forall q, q < 5 -> Preprocess.price_bucket (Num q) = "budget"%string) /\
  (forall q, 5 <= q -> q < 15 -> Preprocess.price_bucket (Num q) = "mid-range"%string) /\
  (forall q, 15 <= q -> q < 30 -> Preprocess.price_bucket (Num q) = "premium"%string) /\
  (forall q, 30 <= q -> Preprocess.price_bucket (Num q) = "luxury"%string) /\
  Preprocess.price_bucket NaN = "unknown"%string /\
  Preprocess.price_bucket NInf = "budget"%string /\
  Preprocess.price_bucket PInf = "luxury"%string /\
  (forall x, Preprocess.categorize_price_range x = Preprocess.price_bucket x) /\
  (forall to_numeric rate raw r, In r (Preprocess.process to_numeric rate raw) ->
     Preprocess.price_range r = Preprocess.price_bucket (Preprocess.sell_price r)) /\
  map Preprocess.price_bucket
      [Num (499 # 100); Num (500 # 100); Num (1499 # 100); Num (1500 # 100);
       Num (2999 # 100); Num (3000 # 100)]
  = ["budget"; "mid-range"; "mid-range"; "premium"; "premium"; "luxury"]%string.
Proof.
  unfold Preprocess.price_bucket; cbn [fisnan flt].
  split; [|split; [|split; [|split; [|split; [|split; [|split; [|split; [|split]]]]]]]].
  - intros q H. rewrite Qlt_bool_true by exact H. reflexivity.
  - intros q H1 H2. rewrite Qlt_bool_false by exact H1.
    rewrite Qlt_bool_true by exact H2. reflexivity.
  - intros q H1 H2.
    rewrite Qlt_bool_false by (apply (Qle_trans _ 15); [discriminate|exact H1]).
    rewrite Qlt_bool_false by exact H1. rewrite Qlt_bool_true by exact H2. reflexivity.
  - intros q H.
    rewrite Qlt_bool_false by (apply (Qle_trans _ 30); [discriminate|exact H]).
    rewrite Qlt_bool_false by (apply (Qle_trans _ 30); [discriminate|exact H]).
    rewrite Qlt_bool_false by exact H. reflexivity.
  - reflexivity.
  - reflexivity.
  - reflexivity.
  - intros x. reflexivity.
  - intros to_numeric rate raw r Hr. apply process_In in Hr.
    destruct Hr as [_ [i [x [_ ->]]]]. reflexivity.
  - vm_compute. reflexivity.
Qed.

Lemma price_range_thresholds_witness :
  Preprocess.price_bucket (Num (1234 # 100)) = "mid-range"%string /\
  Preprocess.price_bucket (Num 45) = "luxury"%string.
Proof.
  destruct price_range_thresholds as [_ [Hmid [_ [Hlux _]]]].
  split; [apply (Hmid (1234 # 100))|apply (Hlux 45)];
    vm_compute; try reflexivity; intros Hc; discriminate Hc.
Defined.

(* ------------------------------------------------------------------ *)
(** ** Product-type taxonomy                                           *)
(* ------------------------------------------------------------------ *)

Section TaxonomyProofs.

Local Open Scope string_scope.
Local Open Scope bool_scope.

Lemma extract_product_type_picked (set_order : list string -> list string) (text : string)
    (ls : list string) :
  Taxonomy.picked text = ls ->
  (str_in " track suit " (Taxonomy.padded text) || str_in " tracksuit " (Taxonomy.padded text))
    = false ->
  str_in " denim jacket " (Taxonomy.padded text) = false ->
  Taxonomy.extract_product_type set_order text
  = Taxonomy.post_rules set_order text (set_order (Taxonomy.set_of ls)).
Proof.
  intros Hp Ht Hd. unfold Taxonomy.extract_product_type. cbv zeta.
  rewrite Hp, Ht, Hd. reflexivity.
Qed.

Lemma perm3_cases {A} (a b c : A) (l : list A) :
  Permutation l [a; b; c] ->
  NoDup [a; b; c] ->
  exists x y z, l = [x; y; z] /\ In x [a; b; c] /\ In y [a; b; c] /\ In z [a; b; c] /\
                NoDup [x; y; z].
Proof.
  intros H Hn. pose proof (Permutation_length H) as Hl.
  destruct l as [|x [|y [|z [|w l]]]]; try discriminate Hl.
  exists x, y, z. split; [reflexivity|].
  split; [|split; [|split]];
    try (eapply Permutation_in; [exact H|simpl; auto]).
  eapply Permutation_NoDup; [apply Permutation_sym; exact H|exact Hn].
Qed.

(** C4: whatever order Python's sets iterate in, the extraction of
    ["kurta with dupatta and palazzo"] is exactly ["salwar suit"]. *)
Theorem kurta_dupatta_palazzo_salwar_suit (set_order : list string -> list string)
    (Hset : forall xs, Permutation (set_order xs) xs) :
  Taxonomy.extract_product_type set_order "kurta with dupatta and palazzo" = ["salwar suit"].
Proof.
  rewrite (extract_product_type_picked set_order _ ["dupatta"; "palazzo"; "kurta"])
    by (vm_compute; reflexivity).
  change (Taxonomy.set_of ["dupatta"; "palazzo"; "kurta"]) with ["dupatta"; "palazzo"; "kurta"].
  assert (Hn3 : NoDup ["dupatta"; "palazzo"; "kurta"]).
  { repeat constructor; simpl; intuition discriminate. }
  destruct (perm3_cases _ _ _ _ (Hset ["dupatta"; "palazzo"; "kurta"]) Hn3)
    as [x [y [z [-> [Hx [Hy [Hz Hnd]]]]]]].
  pose proof (Permutation_length_1_inv (Permutation_sym (Hset ["salwar suit"]))) as H1.
  simpl in Hx, Hy, Hz.
  destruct Hx as [<-|[<-|[<-|[]]]]; destruct Hy as [<-|[<-|[<-|[]]]];
    destruct Hz as [<-|[<-|[<-|[]]]];
    try (exfalso; apply NoDup_cons_iff in Hnd; destruct Hnd as [Ha Hnd];
         apply NoDup_cons_iff in Hnd; destruct Hnd as [Hb _];
         simpl in Ha, Hb; intuition fail);
    vm_compute; rewrite H1; vm_compute; reflexivity.
Qed.

(** C3: the labels do not come out in the order they are found in the
    text.  ["top and blazer"] and ["blazer and top"] select the same
    candidates in the same order (longest match first) and put them in a
    set, so for every set iteration order the two outputs are equal, and
    one of them lists its labels in a different order than the text. *)
Theorem extract_order_not_textual (set_order : list string -> list string)
    (Hset : forall xs, Permutation (set_order xs) xs) :
  Taxonomy.extract_product_type set_order "top and blazer"
  = Taxonomy.extract_product_type set_order "blazer and top" /\
  (Taxonomy.extract_product_type set_order "top and blazer" <> ["top"; "blazer"] \/
   Taxonomy.extract_product_type set_order "blazer and top" <> ["blazer"; "top"]).
Proof.
  rewrite (extract_product_type_picked set_order "top and blazer" ["blazer"; "top"])
    by (vm_compute; reflexivity).
  rewrite (extract_product_type_picked set_order "blazer and top" ["blazer"; "top"])
    by (vm_compute; reflexivity).
  change (Taxonomy.set_of ["blazer"; "top"]) with ["blazer"; "top"].
  pose proof (Hset ["blazer"; "top"]) as H2.
  pose proof (Hset ["top"; "blazer"]) as H2'.
  apply Permutation_sym, Permutation_length_2_inv in H2.
  apply Permutation_sym, Permutation_length_2_inv in H2'.
  destruct H2 as [E|E]; rewrite E; vm_compute;
    destruct H2' as [E'|E']; rewrite ?E, ?E'; vm_compute;
    (split; [reflexivity|first [left; discriminate|right; discriminate]]).
Qed.

Lemma kurta_dupatta_palazzo_salwar_suit_witness :
  Taxonomy.extract_product_type (fun l => l) "kurta with dupatta and palazzo" = ["salwar suit"] /\
  Taxonomy.extract_product_type (@rev string) "kurta with dupatta and palazzo" = ["salwar suit"].
Proof.
  split.
  - apply kurta_dupatta_palazzo_salwar_suit. intros xs. apply Permutation_refl.
  - apply kurta_dupatta_palazzo_salwar_suit. intros xs. apply Permutation_sym, Permutation_rev.
Defined.

Lemma extract_order_not_textual_witness :
  Taxonomy.extract_product_type (fun l => l) "top and blazer"
  = Taxonomy.extract_product_type (fun l => l) "blazer and top" /\
  (Taxonomy.extract_product_type (fun l => l) "top and blazer" <> ["top"; "blazer"] \/
   Taxonomy.extract_product_type (fun l => l) "blazer and top" <> ["blazer"; "top"]).
Proof.
  apply extract_order_not_textual. intros xs. apply Permutation_refl.
Defined.

End TaxonomyProofs.


Local Close Scope string_scope.


Lemma filter_filter_andb {B} (g h : B -> bool) l : filter g (filter h l) = filter (fun x => h x && g x) l.
Proof.
  induction l as [|a l IH]; simpl; [reflexivity|].
  destruct (h a); simpl; [destruct (g a); simpl; rewrite ?IH; reflexivity | exact IH].
Qed.

Lemma filter_step_eq o (keep : string -> product -> bool) ps :
  filter_step o keep ps = filter (fun p => keep_opt o (fun s => keep s p)) ps.
Proof.
  unfold filter_step, keep_opt. destruct (truthy o); [reflexivity|].
  symmetry. apply filter_id. reflexivity.
Qed.

Lemma contains_step_ok re o col ps :
  pattern_ok re o = true -> contains_step re o col ps = Ok (filter (fun p => keep_re re o (col p)) ps).
Proof.
  unfold pattern_ok, contains_step, keep_re. destruct (truthy o) as [pat|]; intros H.
  - destruct (re pat) as [m|msg]; [reflexivity|discriminate].
  - f_equal. symmetry. apply filter_id. reflexivity.
Qed.

Lemma contains_step_err re o :
  pattern_ok re o = false -> exists msg, forall col ps, contains_step re o col ps = Raise (ReError msg).
Proof.
  unfold pattern_ok, contains_step. destruct (truthy o) as [pat|]; [|discriminate].
  destruct (re pat) as [m|msg]; [discriminate|]. intros _. exists msg. reflexivity.
Qed.

Lemma filter_products_ok re idx ps f :
  products idx = Some ps -> patterns_ok re f = true ->
  filter_products re idx f = Ok (filter (accepts re f) ps).
Proof.
  intros H Hp. unfold patterns_ok in Hp. apply andb_true_iff in Hp as [Hp Hm].
  apply andb_true_iff in Hp as [Hc Hb].
  unfold filter_products. rewrite H.
  rewrite (contains_step_ok _ _ _ _ Hc). cbn [rbind].
  rewrite (contains_step_ok _ _ _ _ Hb). cbn [rbind]. cbv beta zeta.
  rewrite (contains_step_ok _ _ _ _ Hm). cbn [rbind].
  rewrite !filter_step_eq. clear Hc Hb Hm.
  destruct f as [c b [lo|] [hi|] m z r]; simpl;
    rewrite ?filter_filter_andb; f_equal; apply filter_ext; intros p;
    unfold accepts; simpl; rewrite ?andb_true_r; rewrite ?andb_assoc; reflexivity.
Qed.

Lemma filter_products_err re idx ps f :
  products idx = Some ps -> patterns_ok re f = false ->
  exists msg, filter_products re idx f = Raise (ReError msg).
Proof.
  intros H Hp. unfold filter_products. rewrite H. unfold patterns_ok in Hp.
  destruct (pattern_ok re (f_category f)) eqn:Hc.
  2:{ destruct (contains_step_err re _ Hc) as [msg E]. exists msg. rewrite E. reflexivity. }
  rewrite (contains_step_ok _ _ _ _ Hc). cbn [rbind].
  destruct (pattern_ok re (f_brand f)) eqn:Hb.
  2:{ destruct (contains_step_err re _ Hb) as [msg E]. exists msg. rewrite E. reflexivity. }
  rewrite (contains_step_ok _ _ _ _ Hb). cbn [rbind]. cbv beta zeta. simpl in Hp.
  destruct (contains_step_err re _ Hp) as [msg E]. exists msg. rewrite E. reflexivity.
Qed.

Lemma filter_products_ok_inv re idx ps f rows :
  products idx = Some ps -> filter_products re idx f = Ok rows ->
  patterns_ok re f = true /\ rows = filter (accepts re f) ps.
Proof.
  intros H Hr. destruct (patterns_ok re f) eqn:Hp.
  - rewrite (filter_products_ok re idx ps f H Hp) in Hr. injection Hr as <-. split; reflexivity.
  - destruct (filter_products_err re idx ps f H Hp) as [msg E]. congruence.
Qed.




(** [get_products_by_category] compiles [category] as a case-insensitive
    regular expression: a non-empty pattern that does not compile raises
    [re.error]; otherwise it returns a prefix of the matching rows (every
    row for an empty [category], else the rows whose [Category] the
    compiled pattern matches), of length [head(limit)]: [min(limit, n)]
    for [limit >= 0], and [max(0, n + limit)] for a negative [limit]. *)
Theorem get_products_by_category_prefix re idx ps c limit :
  products idx = Some ps ->
  (forall msg, String.eqb c "" = false -> re c = PatternError msg ->
     get_products_by_category re idx c limit = Raise (ReError msg)) /\
  (forall matches,
     (String.eqb c "" = true /\ matches = ps) \/
     (String.eqb c "" = false /\ exists m, re c = Pattern m /\ matches = filter (fun p => m (Category p)) ps) ->
     exists rows rest,
       get_products_by_category re idx c limit = Ok rows /\ matches = rows ++ rest /\
       Z.of_nat (List.length rows) =
         (if (limit <? 0)%Z then Z.max 0 (Z.of_nat (List.length matches) + limit)
          else Z.min limit (Z.of_nat (List.length matches)))).
Proof.
  intros H. split.
  - intros msg Hc Hre. unfold get_products_by_category, filter_products. rewrite H.
    unfold contains_step, truthy. cbn [f_category]. rewrite Hc, Hre. reflexivity.
  - intros matches Hcase.
    set (f0 := mkFilters (Some c) None None None None None None).
    assert (Hok : patterns_ok re f0 = true /\ filter (accepts re f0) ps = matches).
    { unfold patterns_ok, pattern_ok, f0, accepts, keep_re, keep_opt, truthy.
      cbn [f_category f_brand f_material f_min_price f_max_price f_size f_price_range].
      destruct Hcase as [[Hc ->]|[Hc [m [Hm ->]]]]; rewrite Hc.
      - split; [reflexivity|]. apply filter_id. reflexivity.
      - rewrite Hm. split; [reflexivity|]. apply filter_ext. intros p. rewrite !andb_true_r. reflexivity. }
    destruct Hok as [Hok Hm].
    unfold get_products_by_category. fold f0. rewrite (filter_products_ok re idx ps f0 H Hok), Hm.
    cbn [rbind]. unfold py_head.
    destruct (limit <? 0)%Z eqn:Hl.
    + apply Z.ltb_lt in Hl.
      eexists _, _. split; [reflexivity|]. split; [symmetry; apply firstn_skipn|].
      rewrite length_firstn. lia.
    + apply Z.ltb_ge in Hl.
      eexists _, _. split; [reflexivity|]. split; [symmetry; apply firstn_skipn|].
      rewrite length_firstn. lia.
Qed.

Lemma py_slice_all {B} (start : Z) (xs : list B) :
  (start = 0 \/ start <= - Z.of_nat (List.length xs))%Z -> py_slice_from start xs = xs.
Proof.
  intros H. unfold py_slice_from.
  destruct (start <? 0)%Z eqn:E; [apply Z.ltb_lt in E | apply Z.ltb_ge in E];
    (replace (Z.to_nat _) with O by lia); reflexivity.
Qed.

(** [text_search] with [top_k = 0] or with [top_k] at least the number of
    rows gives the same result as [top_k] equal to the number of rows:
    [argsort()[-0:]] is the whole ranking. *)
Theorem text_search_top_k_zero qs_ties idx query m k :
  tfidf_matrix idx = Some m ->
  (k = 0 \/ Z.of_nat (List.length m) <= k)%Z ->
  text_search qs_ties idx query k = text_search qs_ties idx query (Z.of_nat (List.length m)).
Proof.
  intros Hm Hk. unfold text_search. rewrite Hm.
  destruct (tfidf_vectorizer idx) as [[|tr]|]; [reflexivity| |reflexivity].
  assert (Hl : forall x, List.length (argsort qs_ties (cosine_similarity x m)) = List.length m).
  { intros x. rewrite argsort_length. unfold cosine_similarity. apply length_map. }
  rewrite (py_slice_all (- k)), (py_slice_all (- Z.of_nat (List.length m))); try reflexivity;
    rewrite Hl; lia.
Qed.

Lemma find_first_unique (ps : list product) p :
  NoDup (map product_id ps) -> In p ps ->
  find (fun q => Z.eqb (product_id q) (product_id p)) ps = Some p.
Proof.
  induction ps as [|a ps IH]; intros Hnd Hin; [contradiction|].
  simpl in Hnd. apply NoDup_cons_iff in Hnd as [Hna Hnd]. simpl.
  destruct (Z.eqb_spec (product_id a) (product_id p)) as [E|E].
  - destruct Hin as [->|Hin]; [reflexivity|].
    exfalso. apply Hna. rewrite E. apply in_map. exact Hin.
  - destruct Hin as [->|Hin]; [congruence|]. apply IH; assumption.
Qed.

(** On a table with distinct [product_id]s, [get_product_by_id] on the id
    of any row returns that row. *)
Theorem get_product_by_id_roundtrip idx ps p :
  products idx = Some ps -> NoDup (map product_id ps) -> In p ps ->
  get_product_by_id idx (product_id p) = Ok (Some p).
Proof.
  intros H Hnd Hin. unfold get_product_by_id. rewrite H. f_equal. apply find_first_unique; assumption.
Qed.







Lemma unique_strings_spec seen xs :
  NoDup (unique_strings seen xs) /\
  (forall x, In x (unique_strings seen xs) <-> In x xs /\ ~ In x seen).
Proof.
  revert seen. induction xs as [|a xs IH]; intros seen; simpl.
  - split; [constructor|]. intros x. split; [contradiction|intros [[] _]].
  - destruct (existsb (String.eqb a) seen) eqn:E.
    + destruct (IH seen) as [Hnd Hm]. split; [exact Hnd|].
      intros x. rewrite Hm. split; [intros [H1 H2]; auto|].
      intros [[<-|H1] H2]; [|auto].
      exfalso. apply H2. apply existsb_exists in E as [y [Hy Hxy]].
      apply String.eqb_eq in Hxy. subst. exact Hy.
    + destruct (IH (a :: seen)) as [Hnd Hm].
      assert (Ha : ~ In a seen).
      { intros Hin. assert (existsb (String.eqb a) seen = true) by
          (apply existsb_exists; exists a; split; [exact Hin|apply String.eqb_refl]). congruence. }
      split.
      * constructor; [|exact Hnd]. rewrite Hm. intros [_ H]. apply H. left. reflexivity.
      * intros x. simpl. rewrite Hm. simpl. split.
        -- intros [<-|[H1 H2]]; [auto|]. split; [auto|]. intros H. apply H2. auto.
        -- intros [[<-|H1] H2]; [auto|].
           destruct (String.eqb_spec a x) as [<-|Hax]; [auto|].
           right. split; [exact H1|]. intros [H|H]; auto.
Qed.

(** On a ready engine with a product table, [get_categories] and
    [get_brands] return each category (brand) of the table exactly once,
    and leave the engine unchanged. *)
Theorem categories_and_brands_unique qs_ties re_compile e idx ps :
  is_ready e = true -> index e = Some idx -> products idx = Some ps ->
  exists cs bs,
    run_query qs_ties re_compile QCategories e = (Ok (ANames cs), e) /\
    run_query qs_ties re_compile QBrands e = (Ok (ANames bs), e) /\
    NoDup cs /\ (forall x, In x cs <-> In x (map Category ps)) /\
    NoDup bs /\ (forall x, In x bs <-> In x (map BrandName ps)).
Proof.
  intros Hr Hi Hp. unfold run_query, guarded, engine_index, column. rewrite Hr, Hi. simpl. rewrite Hp. simpl.
  eexists _, _. split; [reflexivity|]. split; [reflexivity|].
  destruct (unique_strings_spec [] (map Category ps)) as [H1 H2].
  destruct (unique_strings_spec [] (map BrandName ps)) as [H3 H4].
  split; [exact H1|]. split; [intros x; rewrite H2; simpl; tauto|].
  split; [exact H3|]. intros x; rewrite H4; simpl; tauto.
Qed.


Lemma count_split seen a r :
  existsb (String.eqb a) seen = false ->
  List.length (filter (notin_seen seen) r) =
  (List.length (filter (String.eqb a) r) + List.length (filter (notin_seen (a :: seen)) r))%nat.
Proof.
  intros Ha. induction r as [|y r IH]; [reflexivity|]. cbn [filter].
  assert (E1 : notin_seen (a :: seen) y = negb (String.eqb y a) && notin_seen seen y)
    by (unfold notin_seen; simpl; destruct (String.eqb y a); reflexivity).
  rewrite E1.
  destruct (String.eqb_spec y a) as [->|Hya].
  - rewrite String.eqb_refl. unfold notin_seen at 1. rewrite Ha. simpl. rewrite IH. reflexivity.
  - assert (Hay : String.eqb a y = false) by (apply String.eqb_neq; congruence).
    rewrite Hay. simpl. destruct (notin_seen seen y); simpl; rewrite IH; lia.
Qed.

Lemma sum_map_ext_in {B} (f g : B -> nat) l :
  (forall x, In x l -> f x = g x) -> fold_right plus 0%nat (map f l) = fold_right plus 0%nat (map g l).
Proof.
  induction l as [|a l IH]; intros H; simpl; [reflexivity|].
  rewrite H by (left; reflexivity). rewrite IH; [reflexivity|]. intros x Hx. apply H. right. exact Hx.
Qed.

Lemma unique_counts_sum seen xs :
  fold_right plus 0%nat (map (fun x => List.length (filter (String.eqb x) xs)) (unique_strings seen xs)) =
  List.length (filter (notin_seen seen) xs).
Proof.
  revert seen. induction xs as [|a r IH]; intros seen; [reflexivity|].
  cbn [unique_strings filter].
  replace (notin_seen seen a) with (negb (existsb (String.eqb a) seen)) by reflexivity.
  destruct (existsb (String.eqb a) seen) eqn:E; cbn [negb map fold_right filter List.length].
  - rewrite <- IH. apply sum_map_ext_in. intros x Hx.
    apply (proj2 (unique_strings_spec seen r) x) in Hx as [_ Hx].
    destruct (String.eqb_spec x a) as [->|]; [|reflexivity].
    exfalso. apply Hx. apply existsb_exists in E as [y [Hy Hay]]. apply String.eqb_eq in Hay. subst. exact Hy.
  - rewrite String.eqb_refl. cbn [List.length].
    rewrite (sum_map_ext_in _ (fun x => List.length (filter (String.eqb x) r))).
    + rewrite IH. rewrite (count_split seen a r E). lia.
    + intros x Hx. apply (proj2 (unique_strings_spec (a :: seen) r) x) in Hx as [_ Hx].
      destruct (String.eqb_spec x a) as [->|]; [|reflexivity].
      exfalso. apply Hx. left. reflexivity.
Qed.

Lemma SS_map_snd {B} (le : B -> B -> bool) (l : list (nat * B)) :
  StronglySorted (before le) l -> StronglySorted (fun a b => le a b = true) (map snd l).
Proof.
  induction 1 as [|a l Hs IH Hf]; simpl; constructor; [exact IH|].
  apply Forall_map. eapply Forall_impl; [|exact Hf]. intros b [Hb _]. exact Hb.
Qed.

Lemma sum_perm (l1 l2 : list Z) : Permutation l1 l2 -> fold_right Z.add 0%Z l1 = fold_right Z.add 0%Z l2.
Proof. induction 1; simpl; lia. Qed.

Lemma value_counts_spec xs :
  let cs := value_counts xs in
  NoDup (map fst cs) /\
  (forall r c, In (r, c) cs -> c = count_of r xs /\ (0 < c)%Z) /\
  (forall r, In r xs -> In r (map fst cs)) /\
  fold_right Z.add 0%Z (map snd cs) = Z.of_nat (List.length xs) /\
  StronglySorted (fun a b => (snd b <= snd a)%Z) cs.
Proof.
  intros cs.
  set (counted := map (fun x => (x, count_of x xs)) (unique_strings [] xs)).
  assert (Hp : Permutation cs counted).
  { unfold cs, value_counts. fold counted.
    rewrite (Permutation_map snd (sort_by_perm _ (enumerate_from 0 counted))).
    rewrite map_snd_enumerate. reflexivity. }
  destruct (unique_strings_spec [] xs) as [Hnd Hm].
  split; [|split; [|split; [|split]]].
  - apply (Permutation_NoDup (Permutation_sym (Permutation_map fst Hp))).
    unfold counted. rewrite map_map. simpl. rewrite map_id. exact Hnd.
  - intros r c Hin. apply (Permutation_in _ Hp) in Hin.
    unfold counted in Hin. apply in_map_iff in Hin as [x [Hx Hxin]]. injection Hx as <- <-.
    split; [reflexivity|]. apply Hm in Hxin as [Hxin _].
    unfold count_of. assert (In x (filter (String.eqb x) xs)) by (apply filter_In; split; [exact Hxin|apply String.eqb_refl]).
    destruct (filter (String.eqb x) xs); [contradiction|simpl; lia].
  - intros r Hr. apply (Permutation_in _ (Permutation_sym (Permutation_map fst Hp))).
    unfold counted. rewrite map_map. simpl. rewrite map_id. apply Hm. split; [exact Hr|intros []].
  - rewrite (sum_perm _ _ (Permutation_map snd Hp)). unfold counted. rewrite map_map. simpl.
    unfold count_of.
    assert (forall l : list string, fold_right Z.add 0%Z (map (fun x => Z.of_nat (List.length (filter (String.eqb x) xs))) l) =
            Z.of_nat (fold_right plus 0%nat (map (fun x => List.length (filter (String.eqb x) xs)) l))) as ->.
    { induction l as [|a l IH]; simpl; [reflexivity|]. rewrite IH. lia. }
    rewrite unique_counts_sum. f_equal. f_equal. apply filter_id. reflexivity.
  - assert (H := SS_map_snd _ _ (sort_by_sorted (fun a b : string * Z => Z.leb (snd b) (snd a))
                 ltac:(intros a b H; apply Z.leb_gt in H; apply Z.leb_le; lia)
                 ltac:(intros a b c H1 H2; apply Z.leb_le in H1, H2; apply Z.leb_le; lia) 0 counted)).
    unfold cs, value_counts. fold counted.
    eapply SS_impl; [|exact H]. simpl. intros a b Hab. apply Z.leb_le. exact Hab.
Qed.

(** On a ready engine with a product table, [get_price_ranges] returns a
    count for each price range that occurs, equal to its number of rows
    and positive; the counts sum to the number of rows and come in
    non-increasing order. *)
Theorem price_ranges_distribution qs_ties re_compile e idx ps :
  is_ready e = true -> index e = Some idx -> products idx = Some ps ->
  exists cs, run_query qs_ties re_compile QPriceRanges e = (Ok (ACounts cs), e) /\
    NoDup (map fst cs) /\
    (forall r c, In (r, c) cs -> c = count_of r (map price_range ps) /\ (0 < c)%Z) /\
    (forall p, In p ps -> In (price_range p) (map fst cs)) /\
    fold_right Z.add 0%Z (map snd cs) = Z.of_nat (List.length ps) /\
    StronglySorted (fun a b => (snd b <= snd a)%Z) cs.
Proof.
  intros Hr Hi Hp. unfold run_query, guarded, engine_index, column. rewrite Hr, Hi. simpl. rewrite Hp. simpl.
  eexists. split; [reflexivity|].
  destruct (value_counts_spec (map price_range ps)) as [H1 [H2 [H3 [H4 H5]]]].
  split; [exact H1|]. split; [exact H2|]. split; [intros p Hin; apply H3; apply in_map; exact Hin|].
  split; [rewrite H4, length_map; reflexivity|exact H5].
Qed.

Lemma mapM_Forall2 {A B} (f : A -> res B) l ys :
  mapM f l = Ok ys -> Forall2 (fun x y => f x = Ok y) l ys.
Proof.
  revert ys. induction l as [|x l IH]; intros ys H; simpl in H.
  - injection H as <-. constructor.
  - destruct (f x) eqn:Ef; [|discriminate]. simpl in H.
    destruct (mapM f l) eqn:Em; [|discriminate]. simpl in H. injection H as <-.
    constructor; [exact Ef|]. apply IH. reflexivity.
Qed.


Lemma Forall2_in_r {A B} (R : A -> B -> Prop) l ys y :
  Forall2 R l ys -> In y ys -> exists x, In x l /\ R x y.
Proof.
  induction 1 as [|x y' l ys Hxy _ IH]; intros Hin; [contradiction|].
  destruct Hin as [<-|Hin]; [exists x; split; [left; reflexivity|exact Hxy]|].
  destruct (IH Hin) as [z [Hz Hr]]. exists z. split; [right; exact Hz|exact Hr].
Qed.

Lemma text_search_rows_in qs idx query k ps hits :
  products idx = Some ps -> text_search qs idx query k = Ok hits ->
  forall x, In x hits -> In (fst x) ps.
Proof.
  intros Hp H x Hx. unfold text_search in H.
  destruct (tfidf_matrix idx); [|discriminate].
  destruct (tfidf_vectorizer idx) as [[|tr]|]; [discriminate| |discriminate].
  destruct (mapM _ _) as [hs|] eqn:Em; simpl in H; [|discriminate]. injection H as <-.
  apply mapM_Forall2 in Em. apply in_concat in Hx as [h [Hh Hx]].
  destruct (Forall2_in_r _ _ _ _ Em Hh) as [i [_ Hi]].
  unfold text_search_row, index_products, iloc in Hi. rewrite Hp in Hi.
  destruct (flt _ _); simpl in Hi.
  - destruct (nth_error ps i) eqn:E; simpl in Hi; [|discriminate]. injection Hi as <-.
    destruct Hx as [<-|[]]. simpl. eapply nth_error_In. exact E.
  - injection Hi as <-. contradiction.
Qed.

Lemma py_head_in {B} k (l : list B) x : In x (py_head k l) -> In x l.
Proof.
  unfold py_head. intros H. destruct (k <? 0)%Z; eapply In_firstn_l; exact H.
Qed.

Lemma search_rows_accepted qs re query f k e rows :
  fst (search qs re query f k e) = Ok rows ->
  exists idx ps, index e = Some idx /\ products idx = Some ps /\ patterns_ok re f = true /\
    forall r, In r rows -> In (fst r) ps /\ accepts re f (fst r) = true.
Proof.
  unfold search. destruct e as [[|] [idx|]]; simpl; try discriminate.
  destruct (products idx) as [ps|] eqn:Hp; [|unfold filter_products; rewrite Hp; discriminate].
  destruct (filter_products re idx f) as [fl|ex] eqn:Hfp; [|discriminate].
  destruct (filter_products_ok_inv re idx ps f fl Hp Hfp) as [Hok ->].
  intros H. exists idx, ps.
  split; [reflexivity|]. split; [exact Hp|]. split; [exact Hok|].
  assert (Hf : forall p, In p (filter (accepts re f) ps) -> In p ps /\ accepts re f p = true)
    by (intros p; apply filter_In).
  destruct (filter (accepts re f) ps) as [|p0 rest] eqn:Hfl.
  - simpl in H. injection H as <-. intros r [].
  - destruct (negb (is_blank query)).
    + destruct (tfidf_vectorizer idx) as [[|tr]|]; [discriminate| |discriminate].
      destruct (text_search _ _ query k) as [results|] eqn:Ht; simpl in H; [|discriminate].
      injection H as <-. intros r Hr. apply in_map_iff in Hr as [[p s] [<- Hps]].
      apply Hf. cbn [fst]. refine (text_search_rows_in _ _ query k _ _ _ Ht (p, s) Hps). reflexivity.
    + simpl in H. injection H as <-. intros r Hr. apply in_map_iff in Hr as [p [<- Hin]].
      apply Hf. eapply py_head_in. exact Hin.
Qed.


Lemma category_keyword_literal ql c :
  detect_category ql = Some c -> String.eqb c "" = false /\ literal_pattern c = true.
Proof.
  unfold detect_category. destruct (find _ _) as [kc|] eqn:E; simpl; [|discriminate].
  intros H. injection H as <-. apply find_some in E as [E _].
  simpl in E. repeat destruct E as [<-|E]; try (split; reflexivity). contradiction.
Qed.

Lemma material_keyword_literal ql m :
  detect_material ql = Some m -> String.eqb m "" = false /\ literal_pattern m = true.
Proof.
  unfold detect_material. intros E. apply find_some in E as [E _].
  simpl in E. repeat destruct E as [<-|E]; try (split; reflexivity). contradiction.
Qed.

(** Every row [smart_search] returns satisfies the filters it detects in
    the lower-cased query: the price range ("budget" before "luxury"
    before "mid-range"), the category of the first matching keyword and
    the first material named in the query, each a plain ASCII word
    without regular-expression metacharacters, matched by its compiled
    case-insensitive pattern. *)
Theorem smart_search_detected qs re query k e rows :
  fst (smart_search qs re query k e) = Ok rows ->
  let ql := str_lower query in
  forall r, In r rows ->
  (existsb (fun w => str_in w ql) ["cheap"; "budget"; "affordable"]%string = true ->
     price_range (fst r) = "budget"%string) /\
  (existsb (fun w => str_in w ql) ["cheap"; "budget"; "affordable"]%string = false ->
   existsb (fun w => str_in w ql) ["premium"; "expensive"; "luxury"]%string = true ->
     price_range (fst r) = "luxury"%string) /\
  (existsb (fun w => str_in w ql) ["cheap"; "budget"; "affordable"; "premium"; "expensive"; "luxury"]%string = false ->
   str_in "mid" ql = true -> price_range (fst r) = "mid-range"%string) /\
  (forall c, detect_category ql = Some c ->
     literal_pattern c = true /\ exists m, re c = Pattern m /\ m (Category (fst r)) = true) /\
  (forall mt, detect_material ql = Some mt ->
     literal_pattern mt = true /\
     exists s m, material (fst r) = Some s /\ re mt = Pattern m /\ m s = true).
Proof.
  intros H ql r Hr. unfold smart_search in H.
  destruct (is_ready e); simpl in H; [|discriminate].
  destruct (search_rows_accepted _ _ _ _ _ _ _ H) as [idx [ps [_ [_ [_ Hacc]]]]].
  destruct (Hacc r Hr) as [_ Ha]. unfold accepts in Ha. cbn [f_category f_material f_price_range] in Ha.
  rewrite !andb_true_iff in Ha. destruct Ha as [[[[[[Hcat _] _] _] Hmat] _] Hpr].
  fold ql in Hcat, Hmat, Hpr.
  unfold keep_opt, detect_price_range in Hpr.
  split; [|split; [|split; [|split]]].
  - intros E. rewrite E in Hpr. simpl in Hpr. apply String.eqb_eq. exact Hpr.
  - intros E1 E2. rewrite E1, E2 in Hpr. simpl in Hpr. apply String.eqb_eq. exact Hpr.
  - intros E1 E2. simpl in E1. rewrite !orb_false_iff in E1.
    destruct E1 as [? [? [? [? [? [? _]]]]]].
    cbn [existsb] in Hpr. rewrite H0, H1, H2, H3, H4, H5, E2 in Hpr. simpl in Hpr.
    apply String.eqb_eq. exact Hpr.
  - intros c Hc. destruct (category_keyword_literal _ _ Hc) as [Hne Hlit].
    split; [exact Hlit|].
    unfold keep_re, truthy in Hcat. rewrite Hc, Hne in Hcat.
    destruct (re c) as [m|msg]; [|discriminate]. exists m. split; [reflexivity|exact Hcat].
  - intros mt Hm. destruct (material_keyword_literal _ _ Hm) as [Hne Hlit].
    split; [exact Hlit|].
    unfold keep_re, truthy in Hmat. rewrite Hm, Hne in Hmat.
    destruct (re mt) as [m|msg]; [|discriminate].
    destruct (material (fst r)) as [s|]; [|discriminate].
    exists s, m. split; [reflexivity|]. split; [reflexivity|exact Hmat].
Qed.

(** [initialize_from_csv] with [rebuild_index=False] returns normally
    from any engine and marks it ready over an unbuilt index: every query
    then raises "Index not built" or a [TypeError] from the missing
    table, and [smart_search] raises "Index not built". *)
Theorem initialize_without_index fit data e0 :
  let r := initialize_from_csv fit data false e0 in
  let e := snd r in
  fst r = Ok tt /\ is_ready e = true /\
  (forall qs re op, exists ex, run_query qs re op e = (Raise ex, e) /\
     (ex = not_built \/ ex = TypeError "'NoneType' object is not subscriptable"%string)) /\
  (forall qs re query k, smart_search qs re query k e = (Raise not_built, e)).
Proof.
  intros r e. split; [reflexivity|]. split; [reflexivity|]. split.
  - intros qs re op. destruct op; eexists; (split; [reflexivity|]); auto.
  - intros qs re query k. reflexivity.
Qed.









Import Sizes.


Lemma list_ascii_of_string_append (a b : string) :
  list_ascii_of_string (a ++ b) = list_ascii_of_string a ++ list_ascii_of_string b.
Proof. induction a as [|c a IH]; simpl; [reflexivity|]. rewrite IH. reflexivity. Qed.

Lemma prefixb_in p s : prefixb p s = true -> forall c, In c p -> In c s.
Proof.
  revert s. induction p as [|a p IH]; intros s H c Hc; [destruct Hc|].
  destruct s as [|d s]; [discriminate|].
  simpl in H. apply andb_prop in H as [H1 H2]. apply Ascii.eqb_eq in H1. subst d.
  destruct Hc as [<-|Hc]; [left; reflexivity|right; exact (IH s H2 c Hc)].
Qed.

(** A separator with a character absent from [s] never splits it. *)
Lemma split_go_none sep cur s :
  (exists c, In c sep /\ ~ In c s) ->
  split_go sep O cur s = [rev cur ++ s].
Proof.
  intros [a [Ha Hn]].
  revert cur. induction s as [|c s IH]; intros cur; simpl.
  - rewrite app_nil_r. reflexivity.
  - destruct (prefixb sep (c :: s)) eqn:E.
    + exfalso. exact (Hn (prefixb_in _ _ E a Ha)).
    + rewrite IH; [simpl; rewrite <- ?app_assoc; reflexivity|].
      intros Hin. apply Hn. right. exact Hin.
Qed.

Lemma split_comma_step cur p tail :
  ~ In ","%char p ->
  split_go [","%char] O cur (p ++ ","%char :: tail) = (rev cur ++ p) :: split_go [","%char] O [] tail.
Proof.
  revert cur. induction p as [|c p IH]; intros cur Hp.
  - simpl. rewrite app_nil_r. reflexivity.
  - destruct (Ascii.eqb_spec "," c) as [E|E]; [exfalso; apply Hp; left; congruence|].
    cbn [app split_go].
    replace (prefixb [","%char] (c :: p ++ ","%char :: tail)) with false
      by (cbn [prefixb]; apply Ascii.eqb_neq in E; rewrite E; reflexivity).
    rewrite IH; [simpl; rewrite <- ?app_assoc; reflexivity|]. intros H. apply Hp. right. exact H.
Qed.

Lemma list_ascii_concat_cons (s : string) (ss : list string) :
  ss <> [] ->
  list_ascii_of_string (String.concat ","%string (s :: ss)) =
  list_ascii_of_string s ++ ","%char :: list_ascii_of_string (String.concat ","%string ss).
Proof.
  intros H. destruct ss as [|s' ss]; [congruence|].
  change (String.concat ","%string (s :: s' :: ss)) with (String.append s (String.append ","%string (String.concat ","%string (s' :: ss)))).
  rewrite !list_ascii_of_string_append. reflexivity.
Qed.

Lemma in_concat_chars (c : ascii) (ss : list string) :
  In c (list_ascii_of_string (String.concat ","%string ss)) ->
  c = ","%char \/ exists s, In s ss /\ In c (list_ascii_of_string s).
Proof.
  induction ss as [|s ss IH]; simpl; [intros []|].
  destruct ss as [|s' ss'].
  - intros H. right. exists s. split; [left; reflexivity|exact H].
  - rewrite list_ascii_of_string_append. simpl. intros H. apply in_app_or in H as [H|[H|H]].
    + right. exists s. split; [left; reflexivity|exact H].
    + left. congruence.
    + destruct (IH H) as [E|[s0 [Hs0 Hc]]]; [left; exact E|].
      right. exists s0. split; [right; exact Hs0|exact Hc].
Qed.

Lemma split_comma_join (ss : list string) :
  ss <> [] -> (forall s, In s ss -> ~ In ","%char (list_ascii_of_string s)) ->
  split_go [","%char] O [] (list_ascii_of_string (String.concat ","%string ss)) = map list_ascii_of_string ss.
Proof.
  induction ss as [|s ss IH]; intros Hne H; [congruence|].
  destruct ss as [|s' ss'].
  - simpl. rewrite split_go_none; [reflexivity|].
    exists ","%char. split; [left; reflexivity|]. exact (H s (or_introl eq_refl)).
  - rewrite list_ascii_concat_cons by discriminate.
    rewrite split_comma_step by (apply H; left; reflexivity).
    rewrite IH; [reflexivity|discriminate|]. intros x Hx. apply H. right. exact Hx.
Qed.

(** [parse_sizes] inverts the ["Size:a,b,c"] format: for a non-empty list
    of sizes without commas or colons and without surrounding
    whitespace, it returns the list itself. *)
Theorem parse_sizes_roundtrip (sizes : list string) :
  sizes <> [] ->
  (forall sz, In sz sizes ->
     ~ In ","%char (list_ascii_of_string sz) /\ ~ In ":"%char (list_ascii_of_string sz) /\
     Taxonomy.strip (list_ascii_of_string sz) = list_ascii_of_string sz) ->
  parse_sizes (Some (String.append "Size:" (String.concat ","%string sizes))) = Ok sizes.
Proof.
  intros Hne H. unfold parse_sizes.
  replace (str_in "Size:" _) with true by (destruct (String.concat ","%string sizes); reflexivity).
  unfold str_split. simpl.
  rewrite split_go_none.
  - simpl. f_equal. rewrite split_comma_join; [|exact Hne|intros s Hs; apply H; exact Hs].
    rewrite map_map. rewrite <- (map_id sizes) at 2. apply map_ext_in. intros sz Hsz.
    destruct (H sz Hsz) as [_ [_ Hst]]. rewrite Hst. apply string_of_list_ascii_of_string.
  - exists ":"%char. split; [simpl; tauto|]. intros Hin.
    apply in_concat_chars in Hin as [E|[s [Hs Hcs]]]; [discriminate|].
    destruct (H s Hs) as [_ [Hcol _]]. exact (Hcol Hcs).
Qed.

Lemma split_go_nonempty sep k cur s : split_go sep k cur s <> [].
Proof.
  revert k cur. induction s as [|c s IH]; intros k cur; simpl; [discriminate|].
  destruct k; [destruct (prefixb sep (c :: s)); [discriminate|apply IH]|apply IH].
Qed.

Lemma split_go_two sep cur s i :
  prefixb sep (skipn i s) = true -> sep <> [] ->
  exists a b rest, split_go sep O cur s = a :: b :: rest.
Proof.
  intros Hp Hs. revert cur i Hp. induction s as [|c s IH]; intros cur i Hp.
  - destruct i; destruct sep; simpl in Hp; congruence.
  - simpl. destruct (prefixb sep (c :: s)) eqn:E.
    + destruct (split_go sep (List.length sep - 1) [] s) as [|b rest] eqn:E2;
        [exfalso; exact (split_go_nonempty _ _ _ _ E2)|].
      exists (rev cur), b, rest. reflexivity.
    + destruct i as [|i]; [simpl in Hp; congruence|]. exact (IH (c :: cur) i Hp).
Qed.

Lemma prefix_prefixb s1 s2 :
  String.prefix s1 s2 = true -> prefixb (list_ascii_of_string s1) (list_ascii_of_string s2) = true.
Proof.
  revert s1. induction s2 as [|b s2 IH]; intros [|a s1] H; simpl in *; try reflexivity; try discriminate.
  destruct (ascii_dec a b) as [<-|]; [|discriminate].
  rewrite Ascii.eqb_refl. simpl. exact (IH s1 H).
Qed.

Lemma index_prefixb s1 s2 m :
  String.index 0 s1 s2 = Some m ->
  exists i, prefixb (list_ascii_of_string s1) (skipn i (list_ascii_of_string s2)) = true.
Proof.
  revert m. induction s2 as [|b s2 IH]; intros m H.
  - destruct s1; simpl in H; [|discriminate]. exists O. reflexivity.
  - cbn [String.index] in H. destruct (String.prefix s1 (String b s2)) eqn:E.
    + exists O. exact (prefix_prefixb _ _ E).
    + destruct (String.index 0 s1 s2) as [m'|] eqn:E2; [|discriminate].
      destruct (IH m' eq_refl) as [i Hi]. exists (S i). exact Hi.
Qed.

(** [parse_sizes] never raises: once ["Size:"] occurs in the string,
    [split("Size:")] has a second part. *)
Theorem parse_sizes_never_raises (size_string : option string) :
  exists sizes, parse_sizes size_string = Ok sizes.
Proof.
  destruct size_string as [s|]; [|exists []; reflexivity].
  unfold parse_sizes. destruct (str_in "Size:" s) eqn:E; [|exists []; reflexivity].
  unfold str_in in E. destruct (String.index 0 "Size:" s) as [m|] eqn:Ei; [|discriminate].
  destruct (index_prefixb _ _ _ Ei) as [i Hi].
  unfold str_split.
  destruct (split_go_two (list_ascii_of_string "Size:") [] (list_ascii_of_string s) i Hi ltac:(discriminate))
    as [a [b [rest Hsp]]].
  rewrite Hsp. simpl. eexists. reflexivity.
Qed.

Local Open Scope string_scope.


Lemma mem_In x l : Taxonomy.mem x l = true <-> In x l.
Proof.
  unfold Taxonomy.mem. rewrite existsb_exists. split.
  - intros [y [Hy E]]. apply String.eqb_eq in E. subst y. exact Hy.
  - intros H. exists x. split; [exact H|apply String.eqb_refl].
Qed.

Lemma mem_false x l : Taxonomy.mem x l = false <-> ~ In x l.
Proof. rewrite <- mem_In. destruct (Taxonomy.mem x l); split; congruence. Qed.

(** The [seen]-guarded append loop shared by [set()] and [_post_rules]. *)
Lemma fold_add_spec (xs acc : list string) :
  NoDup acc ->
  let r := fold_left (fun acc x => if Taxonomy.mem x acc then acc else app acc [x]) xs acc in
  NoDup r /\ (forall y, In y r <-> In y acc \/ In y xs) /\
  exists l2, r = app acc l2 /\ (forall y, In y l2 -> In y xs /\ ~ In y acc).
Proof.
  revert acc. induction xs as [|x xs IH]; intros acc Hn; simpl.
  - split; [exact Hn|]. split; [intros y; tauto|]. exists []. rewrite app_nil_r.
    split; [reflexivity|intros y []].
  - destruct (Taxonomy.mem x acc) eqn:E.
    + apply mem_In in E. destruct (IH acc Hn) as [H1 [H2 [l2 [H3 H4]]]].
      split; [exact H1|]. split.
      * intros y. rewrite H2. split; [tauto|]. intros [H|[<-|H]]; tauto.
      * exists l2. split; [exact H3|]. intros y Hy. destruct (H4 y Hy). split; [right|]; assumption.
    + apply mem_false in E.
      assert (Hn' : NoDup (app acc [x])).
      { apply NoDup_app; [exact Hn|constructor; [intros []|constructor]|].
        intros y Hy [<-|[]]. exact (E Hy). }
      destruct (IH _ Hn') as [H1 [H2 [l2 [H3 H4]]]].
      split; [exact H1|]. split.
      * intros y. rewrite H2, in_app_iff. simpl. tauto.
      * exists (x :: l2). split; [rewrite H3, <- app_assoc; reflexivity|].
        intros y [<-|Hy]; [split; [left; reflexivity|exact E]|].
        destruct (H4 y Hy) as [Hy1 Hy2]. rewrite in_app_iff in Hy2. simpl in Hy2.
        split; [right; exact Hy1|tauto].
Qed.

Lemma set_of_spec l : NoDup (Taxonomy.set_of l) /\ forall y, In y (Taxonomy.set_of l) <-> In y l.
Proof.
  destruct (fold_add_spec l [] (NoDup_nil _)) as [H1 [H2 _]].
  split; [exact H1|]. intros y. unfold Taxonomy.set_of, Taxonomy.set_add. rewrite H2. simpl. tauto.
Qed.

Lemma set_add_In x y l : In y (Taxonomy.set_add x l) <-> y = x \/ In y l.
Proof.
  unfold Taxonomy.set_add. destruct (Taxonomy.mem x l) eqn:E.
  - apply mem_In in E. split; [tauto|]. intros [->|H]; assumption.
  - rewrite in_app_iff. simpl. split; intros H; intuition.
Qed.

Lemma set_discard_In x y l : In y (Taxonomy.set_discard x l) <-> y <> x /\ In y l.
Proof.
  unfold Taxonomy.set_discard. rewrite filter_In, negb_true_iff.
  destruct (String.eqb_spec y x); split; intros H; intuition congruence.
Qed.

Ltac post_rules_stages text labels :=
  unfold Taxonomy.post_rules; cbv zeta;
  let t := fresh "t" in set (t := Taxonomy.padded text);
  let L0 := fresh "L0" in set (L0 := Taxonomy.set_of labels);
  let L1 := fresh "L1" in
  match goal with |- context [if ?c then Taxonomy.set_add "tracksuit" (Taxonomy.set_discard "track pants" L0) else L0] =>
    set (L1 := if c then Taxonomy.set_add "tracksuit" (Taxonomy.set_discard "track pants" L0) else L0) end;
  let L2 := fresh "L2" in
  set (L2 := if str_in " denim jacket " t then Taxonomy.set_discard "jeans" L1 else L1);
  let L3 := fresh "L3" in
  match goal with |- context [if Taxonomy.mem "kurta" L2 && ?c && ?d then ?a else ?b] =>
    set (L3 := if Taxonomy.mem "kurta" L2 && c && d then a else b) end;
  let L4 := fresh "L4" in
  match goal with |- context [if existsb ?f Taxonomy.specific then ?a else L3] =>
    set (L4 := if existsb f Taxonomy.specific then a else L3) end;
  let L5 := fresh "L5" in
  match goal with |- context [if Taxonomy.mem "necklace" L4 && ?c then ?a else L4] =>
    set (L5 := if Taxonomy.mem "necklace" L4 && c then a else L4) end.

(** The last step of [_post_rules]: the kept labels in input order,
    then the rest of the set. *)
Lemma post_rules_final (set_order : list string -> list string)
    (Hset : forall xs, Permutation (set_order xs) xs) (L labels : list string) :
  let out := fold_left (fun acc x => if Taxonomy.mem x acc then acc else app acc [x])
               (set_order L) (Taxonomy.set_of (filter (fun x => Taxonomy.mem x L) labels)) in
  NoDup out /\ (forall y, In y out <-> In y L) /\
  exists l2, out = app (Taxonomy.set_of (filter (fun x => Taxonomy.mem x L) labels)) l2 /\
             (forall y, In y l2 -> ~ In y labels).
Proof.
  destruct (set_of_spec (filter (fun x => Taxonomy.mem x L) labels)) as [Hn Hm].
  destruct (fold_add_spec (set_order L) _ Hn) as [H1 [H2 [l2 [H3 H4]]]].
  split; [exact H1|]. split.
  - intros y. rewrite H2, Hm, filter_In, mem_In.
    split; [intros [[_ H]|H]; [exact H|exact (Permutation_in _ (Hset L) H)]|].
    intros H. right. exact (Permutation_in _ (Permutation_sym (Hset L)) H).
  - exists l2. split; [exact H3|]. intros y Hy Hl.
    destruct (H4 y Hy) as [Hy1 Hy2]. apply Hy2. apply Hm. apply filter_In.
    split; [exact Hl|]. apply mem_In. exact (Permutation_in _ (Hset L) Hy1).
Qed.



Ltac case_if :=
  match goal with |- context [if ?c then _ else _] => destruct c; cbv beta iota end.
Ltac case_if_eq E :=
  match goal with |- context [if ?c then _ else _] => destruct c eqn:E; cbv beta iota end.

Section PostRules.

Variable set_order : list string -> list string.
Hypothesis Hset : forall xs, Permutation (set_order xs) xs.

Lemma post_rules_stage_facts (text : string) (labels : list string) :
  exists L0 L1 L2 L3 L4 L5 : list string,
  Taxonomy.post_rules set_order text labels =
    fold_left (fun acc x => if Taxonomy.mem x acc then acc else app acc [x])
      (set_order L5) (Taxonomy.set_of (filter (fun x => Taxonomy.mem x L5) labels)) /\
  (forall y, In y L0 <-> In y labels) /\
  (forall y, In y L1 -> In y L0 \/ y = "tracksuit") /\
  ((str_in " tracksuit " (Taxonomy.padded text) || str_in " track suit " (Taxonomy.padded text)) = true ->
     In "tracksuit" L1 /\ ~ In "track pants" L1) /\
  (forall y, In y L2 -> In y L1) /\
  (forall y, y <> "jeans" -> In y L1 -> In y L2) /\
  (str_in " denim jacket " (Taxonomy.padded text) = true -> ~ In "jeans" L2) /\
  (forall y, In y L3 -> In y L2 \/ y = "salwar suit" \/ y = "ethnic set") /\
  (forall y, ~ In y (app ["kurta"; "dupatta"; "choli"] Taxonomy.bottoms) -> In y L2 -> In y L3) /\
  (forall y, In y L4 -> In y L3) /\
  (forall y, ~ In y Taxonomy.generic -> In y L3 -> In y L4) /\
  ((exists s, In s Taxonomy.specific /\ In s L4) -> forall g, In g Taxonomy.generic -> ~ In g L4) /\
  (forall y, In y L5 -> In y L4) /\
  (forall y, y <> "pendant" -> In y L4 -> In y L5) /\
  ~ (In "necklace" L5 /\ In "pendant" L5).
Proof.
  post_rules_stages text labels.
  exists L0, L1, L2, L3, L4, L5. split; [reflexivity|].
  split; [intros y; apply set_of_spec|].
  split.
  { intros y. unfold L1. case_if.
    - rewrite set_add_In, set_discard_In. intuition.
    - tauto. }
  split.
  { intros E. unfold L1. rewrite E. rewrite !set_add_In, !set_discard_In.
    split; [left; reflexivity|intros [H|[H _]]; [discriminate H|apply H; reflexivity]]. }
  split.
  { intros y. unfold L2. case_if; [rewrite set_discard_In; tauto|tauto]. }
  split.
  { intros y Hy H. unfold L2. case_if; [rewrite set_discard_In; tauto|exact H]. }
  split.
  { intros E. unfold L2. rewrite E, set_discard_In. intros [H _]. apply H. reflexivity. }
  split.
  { intros y. unfold L3.
    case_if.
    - rewrite set_add_In, filter_In. intuition.
    - case_if; [rewrite set_add_In|]; intuition. }
  split.
  { intros y Hy H. unfold L3.
    case_if.
    - rewrite set_add_In, filter_In, negb_true_iff, mem_false. tauto.
    - case_if; [rewrite set_add_In|]; tauto. }
  split.
  { intros y. unfold L4. case_if; [rewrite filter_In; tauto|tauto]. }
  split.
  { intros y Hy H. unfold L4. case_if; [|exact H].
    rewrite filter_In, negb_true_iff, mem_false. tauto. }
  split.
  { intros [s [Hs Hs4]] g Hg. unfold L4 in *. case_if_eq E.
    - rewrite filter_In, negb_true_iff, mem_false. tauto.
    - exfalso. rewrite <- not_true_iff_false in E. apply E.
      apply existsb_exists. exists s. split; [exact Hs|apply mem_In; exact Hs4]. }
  split.
  { intros y. unfold L5. case_if; [rewrite set_discard_In; tauto|tauto]. }
  split.
  { intros y Hy H. unfold L5. case_if; [rewrite set_discard_In; tauto|exact H]. }
  { unfold L5. destruct (Taxonomy.mem "necklace" L4 && Taxonomy.mem "pendant" L4) eqn:E.
    - rewrite !set_discard_In. intros [_ [H _]]. apply H. reflexivity.
    - intros [H1 H2]. apply mem_In in H1, H2. rewrite H1, H2 in E. discriminate. }
Qed.

(** [_post_rules] keeps its five guards on the labels it returns. *)
Theorem post_rules_guards (text : string) (labels : list string) :
  let out := Taxonomy.post_rules set_order text labels in
  ~ (In "necklace" out /\ In "pendant" out) /\
  ((exists s, In s Taxonomy.specific /\ In s out) -> forall g, In g Taxonomy.generic -> ~ In g out) /\
  (str_in " denim jacket " (Taxonomy.padded text) = true -> ~ In "jeans" out) /\
  ((str_in " tracksuit " (Taxonomy.padded text) || str_in " track suit " (Taxonomy.padded text)) = true ->
     In "tracksuit" out /\ ~ In "track pants" out).
Proof.
  destruct (post_rules_stage_facts text labels)
    as [L0 [L1 [L2 [L3 [L4 [L5 [Hout [S0 [S1a [S1b [S2a [S2b [S2c [S3a [S3b [S4a [S4b [S4c
        [S5a [S5b S5c]]]]]]]]]]]]]]]]]]]].
  destruct (post_rules_final set_order Hset L5 labels) as [_ [Hin _]].
  cbv zeta. rewrite Hout, !Hin.
  split; [exact S5c|]. split.
  { intros [s [Hs Hs5]] g Hg Hg5. apply (proj1 (Hin _)), S5a in Hs5. apply (proj1 (Hin _)), S5a in Hg5.
    exact (S4c (ex_intro _ s (conj Hs Hs5)) g Hg Hg5). }
  split.
  { intros E H. apply S5a, S4a, S3a in H as [H|[H|H]]; try discriminate H.
    exact (S2c E H). }
  intros E. destruct (S1b E) as [T1 T2]. split.
  - apply S5b; [discriminate|]. apply S4b; [simpl; intuition discriminate|].
    apply S3b; [simpl; intuition discriminate|]. apply S2b; [discriminate|exact T1].
  - intros H. apply S5a, S4a, S3a in H as [H|[H|H]]; try discriminate H.
    exact (T2 (S2a _ H)).
Qed.

Lemma post_rules_members (text : string) (labels : list string) :
  NoDup (Taxonomy.post_rules set_order text labels) /\
  forall y, In y (Taxonomy.post_rules set_order text labels) ->
    In y labels \/ In y ["tracksuit"; "salwar suit"; "ethnic set"].
Proof.
  destruct (post_rules_stage_facts text labels)
    as [L0 [L1 [L2 [L3 [L4 [L5 [Hout [S0 [S1a [S1b [S2a [S2b [S2c [S3a [S3b [S4a [S4b [S4c
        [S5a [S5b S5c]]]]]]]]]]]]]]]]]]]].
  destruct (post_rules_final set_order Hset L5 labels) as [Hnd [Hin _]].
  rewrite Hout. split; [exact Hnd|].
  intros y H. apply (proj1 (Hin _)) in H. apply S5a, S4a, S3a in H as [H|[E|E]];
    [|subst y; simpl; tauto|subst y; simpl; tauto].
  apply S2a, S1a in H as [H|E]; [left; apply S0; exact H|subst y; simpl; tauto].
Qed.

(** [_post_rules] returns each label once: first the input labels that
    survive, in the order of their first occurrence, then labels the
    rules added, which are among ["tracksuit"], ["salwar suit"] and
    ["ethnic set"]. *)
Theorem post_rules_output_shape (text : string) (labels : list string) :
  let out := Taxonomy.post_rules set_order text labels in
  NoDup out /\
  (forall y, In y out -> In y labels \/ In y ["tracksuit"; "salwar suit"; "ethnic set"]) /\
  exists l2, out = app (Taxonomy.set_of (filter (fun x => Taxonomy.mem x out) labels)) l2 /\
             (forall y, In y l2 -> ~ In y labels).
Proof.
  destruct (post_rules_stage_facts text labels)
    as [L0 [L1 [L2 [L3 [L4 [L5 [Hout [S0 [S1a [S1b [S2a [S2b [S2c [S3a [S3b [S4a [S4b [S4c
        [S5a [S5b S5c]]]]]]]]]]]]]]]]]]]].
  destruct (post_rules_members text labels) as [Hnd Hm].
  destruct (post_rules_final set_order Hset L5 labels) as [_ [Hin [l2 [Heq Hl2]]]].
  cbv zeta. split; [exact Hnd|]. split; [exact Hm|].
  rewrite Hout.
  exists l2. split; [|exact Hl2].
    transitivity (app (Taxonomy.set_of (filter (fun x => Taxonomy.mem x L5) labels)) l2); [exact Heq|].
    f_equal. f_equal. apply filter_ext. intros x. apply eq_true_iff_eq. rewrite !mem_In.
    symmetry. apply Hin.
Qed.

End PostRules.

Lemma resolve_from (cs : list (string * (nat * nat))) occ x :
  In x (Taxonomy.resolve cs occ) -> exists sp, In (x, sp) cs.
Proof.
  revert occ. induction cs as [|[c [a b]] cs IH]; intros occ H; simpl in H; [destruct H|].
  destruct (existsb _ occ).
  - destruct (IH _ H) as [sp Hsp]. exists sp. right. exact Hsp.
  - destruct H as [<-|H]; [exists (a, b); left; reflexivity|].
    destruct (IH _ H) as [sp Hsp]. exists sp. right. exact Hsp.
Qed.

Lemma picked_canonical (text : string) x :
  In x (Taxonomy.picked text) -> In x (map fst Taxonomy.TAXONOMY).
Proof.
  unfold Taxonomy.picked. intros H. apply resolve_from in H as [sp H].
  unfold Taxonomy.sort_candidates in H. apply in_map_iff in H as [p [Ep Hp]].
  apply (perm_enum_entry _ _ _ (sort_by_perm _ _)) in Hp. rewrite Ep in Hp. apply nth_error_In in Hp.
  unfold Taxonomy.candidates in Hp. apply in_flat_map in Hp as [[canon pat] [Hc Hm]].
  apply in_map_iff in Hm as [sp' [E _]]. injection E as <- _.
  unfold Taxonomy.CANONICAL_PATTERNS in Hc. apply in_map_iff in Hc as [[c al] [E Hc]].
  injection E as <- _. apply in_map_iff. exists (c, al). split; [reflexivity|exact Hc].
Qed.

Section ExtractProductType.

Variable set_order : list string -> list string.
Hypothesis Hset : forall xs, Permutation (set_order xs) xs.

(** [_extract_product_type] returns distinct labels, each a canonical
    name of [TAXONOMY]. *)
Theorem extract_product_type_labels (text : string) :
  NoDup (Taxonomy.extract_product_type set_order text) /\
  forall y, In y (Taxonomy.extract_product_type set_order text) -> In y (map fst Taxonomy.TAXONOMY).
Proof.
  unfold Taxonomy.extract_product_type. cbv zeta.
  destruct (post_rules_members set_order Hset text
    (set_order
       (if str_in " denim jacket " (Taxonomy.padded text)
        then Taxonomy.set_discard "jeans"
               (if str_in " track suit " (Taxonomy.padded text) || str_in " tracksuit " (Taxonomy.padded text)
                then Taxonomy.set_add "tracksuit" (Taxonomy.set_discard "track pants" (Taxonomy.set_of (Taxonomy.picked text)))
                else Taxonomy.set_of (Taxonomy.picked text))
        else if str_in " track suit " (Taxonomy.padded text) || str_in " tracksuit " (Taxonomy.padded text)
             then Taxonomy.set_add "tracksuit" (Taxonomy.set_discard "track pants" (Taxonomy.set_of (Taxonomy.picked text)))
             else Taxonomy.set_of (Taxonomy.picked text))))
    as [Hnd Hm].
  split; [exact Hnd|]. intros y Hy. apply Hm in Hy as [Hy|Hy].
  - apply (Permutation_in _ (Hset _)) in Hy.
    assert (Hl : forall z, In z (Taxonomy.set_of (Taxonomy.picked text)) -> In z (map fst Taxonomy.TAXONOMY)).
    { intros z Hz. apply (proj1 (proj2 (set_of_spec _) z)) in Hz. exact (picked_canonical text z Hz). }
    assert (Ht : In "tracksuit" (map fst Taxonomy.TAXONOMY)) by (vm_compute; tauto).
    repeat first
      [ match goal with H : In y (if ?c then _ else _) |- _ => destruct c; cbv beta iota in H end
      | apply set_discard_In in Hy as [_ Hy]
      | apply set_add_In in Hy as [->|Hy] ];
    first [exact Ht | exact (Hl y Hy)].
  - assert (Hs : forall z, In z ["tracksuit"; "salwar suit"; "ethnic set"] -> In z (map fst Taxonomy.TAXONOMY)).
    { intros z Hz. simpl in Hz. vm_compute. intuition (subst; tauto). }
    exact (Hs y Hy).
Qed.

End ExtractProductType.


Local Close Scope string_scope.
Local Open Scope nat_scope.


Lemma lead_split ps s :
  Preprocess.lead ps s = true ->
  List.length ps <= List.length s /\
  Forall2 (fun p c => p c = true) ps (firstn (List.length ps) s).
Proof.
  revert s. induction ps as [|p ps IH]; intros s H; [split; [simpl; lia|constructor]|].
  destruct s as [|c s]; [discriminate|]. simpl in H. apply andb_prop in H as [H1 H2].
  destruct (IH s H2) as [Hl Hf]. simpl. split; [lia|]. constructor; assumption.
Qed.

Lemma Forall2_digits ps l :
  (forall p, In p ps -> forall c, p c = true -> Preprocess.is_digit c = false) ->
  Forall2 (fun p c => p c = true) ps l -> filter Preprocess.is_digit l = [].
Proof.
  intros Hp H. induction H as [|p c ps l Hpc _ IH]; [reflexivity|].
  simpl. rewrite (Hp p (or_introl eq_refl) c Hpc). apply IH.
  intros q Hq. apply Hp. right. exact Hq.
Qed.


Lemma no_digit_spec p : no_digit p = true -> forall c, p c = true -> Preprocess.is_digit c = false.
Proof.
  intros H c Hc. unfold no_digit in H. rewrite forallb_forall in H.
  specialize (H (nat_of_ascii c)). rewrite ascii_nat_embedding in H.
  assert (Hin : In (nat_of_ascii c) (seq 0 256)) by (apply in_seq; pose proof (nat_ascii_bounded c); lia).
  specialize (H Hin). rewrite Hc in H. simpl in H. apply negb_true_iff in H. exact H.
Qed.

(** Every alternative of [CURRENCY_RE] matches only non-digits. *)
Lemma currency_match_spec (s : list ascii) :
  Preprocess.currency_match s <= List.length s /\
  filter Preprocess.is_digit (firstn (Preprocess.currency_match s) s) = [].
Proof.
  unfold Preprocess.currency_match.
  repeat match goal with
  | |- context [if Preprocess.lead ?ps s then ?n else _] =>
      let E := fresh "E" in destruct (Preprocess.lead ps s) eqn:E;
      [destruct (lead_split _ _ E) as [Hl Hf]; simpl in Hl; split; [exact Hl|];
       refine (Forall2_digits ps _ _ Hf);
       intros p Hp; simpl in Hp;
       repeat destruct Hp as [<-|Hp]; try contradiction; apply no_digit_spec; vm_compute; reflexivity|]
  end.
  split; [lia|reflexivity].
Qed.

Lemma currency_match_zero (c : ascii) (r : list ascii) :
  Preprocess.currency_match (c :: r) = 0 ->
  Preprocess.code_is 44 c = false /\ Preprocess.re_space c = false.
Proof.
  unfold Preprocess.currency_match.
  repeat match goal with |- context [if ?x then _ else _] => destruct x eqn:? end;
    try discriminate.
  intros _. simpl in *. rewrite andb_true_r in *. split; assumption.
Qed.

Lemma strip_go_spec fuel s :
  List.length s <= fuel ->
  filter Preprocess.is_digit (Preprocess.strip_go fuel s) = filter Preprocess.is_digit s /\
  forall c, In c (Preprocess.strip_go fuel s) ->
    Preprocess.code_is 44 c = false /\ Preprocess.re_space c = false.
Proof.
  revert s. induction fuel as [|f IH]; intros s Hl.
  - destruct s; [|simpl in Hl; lia]. split; [reflexivity|intros c []].
  - destruct s as [|c r]; [split; [reflexivity|intros d []]|].
    cbn [Preprocess.strip_go].
    destruct (Preprocess.currency_match (c :: r)) as [|n] eqn:E.
    + simpl in Hl. destruct (IH r ltac:(lia)) as [H1 H2].
      destruct (currency_match_zero c r E) as [Hc1 Hc2]. split.
      * simpl. rewrite H1. reflexivity.
      * intros d [<-|Hd]; [split; assumption|exact (H2 d Hd)].
    + destruct (currency_match_spec (c :: r)) as [Hb Hd]. rewrite E in Hb, Hd.
      destruct (IH (skipn (S n) (c :: r))) as [H1 H2].
      { rewrite length_skipn. simpl in *. lia. }
      split; [|exact H2].
      rewrite H1. rewrite <- (firstn_skipn (S n) (c :: r)) at 2.
      rewrite filter_app, Hd. reflexivity.
Qed.

Lemma length_list_ascii (s : string) : List.length (list_ascii_of_string s) = String.length s.
Proof. induction s as [|c s IH]; simpl; [reflexivity|]. rewrite IH. reflexivity. Qed.

(** [_clean_prices]: removing [CURRENCY_RE] keeps the digits of the cell
    in order and leaves no comma and no whitespace. *)
Theorem strip_currency_digits (s : string) :
  filter Preprocess.is_digit (list_ascii_of_string (Preprocess.strip_currency s))
  = filter Preprocess.is_digit (list_ascii_of_string s) /\
  forall c, In c (list_ascii_of_string (Preprocess.strip_currency s)) ->
    c <> ","%char /\ Preprocess.re_space c = false.
Proof.
  unfold Preprocess.strip_currency. rewrite list_ascii_of_string_of_list_ascii.
  destruct (strip_go_spec (String.length s) (list_ascii_of_string s)) as [H1 H2].
  { rewrite length_list_ascii. lia. }
  split; [exact H1|]. intros c Hc. destruct (H2 c Hc) as [Hc1 Hc2]. split; [|exact Hc2].
  intros ->. discriminate Hc1.
Qed.


Import SizeTokens.
Local Open Scope string_scope.

Lemma str_ltb_irrefl a : Taxonomy.str_ltb a a = false.
Proof.
  induction a as [|x a IH]; simpl; [reflexivity|].
  rewrite Nat.ltb_irrefl, Nat.eqb_refl. exact IH.
Qed.

Lemma str_ltb_trans a b c :
  Taxonomy.str_ltb a b = true -> Taxonomy.str_ltb b c = true -> Taxonomy.str_ltb a c = true.
Proof.
  revert b c. induction a as [|x a IH]; intros [|y b] [|z c] H1 H2; simpl in *; try discriminate; auto.
  destruct (Nat.ltb_spec (nat_of_ascii x) (nat_of_ascii y));
  destruct (Nat.ltb_spec (nat_of_ascii y) (nat_of_ascii z));
  destruct (Nat.ltb_spec (nat_of_ascii x) (nat_of_ascii z)); try reflexivity;
  destruct (Nat.eqb_spec (nat_of_ascii x) (nat_of_ascii y)); try discriminate;
  destruct (Nat.eqb_spec (nat_of_ascii y) (nat_of_ascii z)); try discriminate;
  destruct (Nat.eqb_spec (nat_of_ascii x) (nat_of_ascii z)); try lia.
  exact (IH b c H1 H2).
Qed.

Lemma str_ltb_total a b : a <> b -> Taxonomy.str_ltb a b = true \/ Taxonomy.str_ltb b a = true.
Proof.
  revert b. induction a as [|x a IH]; intros [|y b] H; simpl; auto; try congruence.
  destruct (Nat.ltb_spec (nat_of_ascii x) (nat_of_ascii y)); [auto|].
  destruct (Nat.ltb_spec (nat_of_ascii y) (nat_of_ascii x)); [auto|].
  assert (Exy : nat_of_ascii x = nat_of_ascii y) by lia.
  rewrite Exy, Nat.eqb_refl. apply IH. intros ->. apply H.
  f_equal. rewrite <- (ascii_nat_embedding x), <- (ascii_nat_embedding y), Exy. reflexivity.
Qed.

Lemma list_ascii_inj (a b : string) : list_ascii_of_string a = list_ascii_of_string b -> a = b.
Proof.
  intros H. rewrite <- (string_of_list_ascii_of_string a), <- (string_of_list_ascii_of_string b), H.
  reflexivity.
Qed.

Lemma size_key_le_total a b : size_key_le a b = false -> size_key_le b a = true.
Proof.
  unfold size_key_le. intros H. apply orb_false_iff in H as [H1 H2].
  apply Nat.ltb_ge in H1.
  destruct (Nat.eqb_spec (String.length a) (String.length b)) as [E|E].
  - simpl in H2. apply negb_false_iff in H2.
    rewrite E, Nat.ltb_irrefl, Nat.eqb_refl. simpl.
    destruct (Taxonomy.str_ltb (list_ascii_of_string a) (list_ascii_of_string b)) eqn:E2; [|reflexivity].
    pose proof (str_ltb_trans _ _ _ H2 E2) as C. rewrite str_ltb_irrefl in C. discriminate.
  - apply orb_true_iff. left. apply Nat.ltb_lt. lia.
Qed.

Lemma size_key_le_trans a b c :
  size_key_le a b = true -> size_key_le b c = true -> size_key_le a c = true.
Proof.
  unfold size_key_le. rewrite !orb_true_iff, !andb_true_iff, !Nat.ltb_lt, !Nat.eqb_eq, !negb_true_iff.
  intros [H1|[H1 H1']] [H2|[H2 H2']]; try (left; lia).
  right. split; [lia|].
  destruct (Taxonomy.str_ltb (list_ascii_of_string c) (list_ascii_of_string a)) eqn:E; [|reflexivity].
  destruct (Taxonomy.str_ltb (list_ascii_of_string b) (list_ascii_of_string a)) eqn:E1; [discriminate|].
  destruct (Taxonomy.str_ltb (list_ascii_of_string c) (list_ascii_of_string b)) eqn:E2; [discriminate|].
  destruct (list_eq_dec ascii_dec (list_ascii_of_string b) (list_ascii_of_string a)) as [Eba|Nba].
  - rewrite Eba in E2. congruence.
  - destruct (str_ltb_total _ _ Nba) as [C|C]; [congruence|].
    pose proof (str_ltb_trans _ _ _ E C) as C2. congruence.
Qed.

Lemma SS_nodup_strict {B} (R : B -> B -> Prop) l :
  StronglySorted R l -> NoDup l -> StronglySorted (fun a b => R a b /\ a <> b) l.
Proof.
  induction 1 as [|a l Hs IH Hf]; intros Hn; constructor.
  - apply IH. inversion Hn; assumption.
  - inversion Hn as [|? ? Ha Hl]; subst. rewrite Forall_forall in *. intros x Hx.
    split; [exact (Hf x Hx)|]. intros ->. exact (Ha Hx).
Qed.


Lemma parse_one_perm set_order s :
  Permutation (parse_one set_order (Some s))
              (set_order (Taxonomy.set_of (map normalize (findall (list_ascii_of_string s))))).
Proof.
  unfold parse_one. rewrite (Permutation_map snd (sort_by_perm size_key_le _)).
  rewrite map_snd_enumerate. reflexivity.
Qed.

Lemma size_key_le_strict a b :
  size_key_le a b = true -> a <> b ->
  (String.length a < String.length b)%nat \/
  (String.length a = String.length b /\
   Taxonomy.str_ltb (list_ascii_of_string a) (list_ascii_of_string b) = true).
Proof.
  unfold size_key_le. rewrite orb_true_iff, andb_true_iff, Nat.ltb_lt, Nat.eqb_eq, negb_true_iff.
  intros [H|[H1 H2]] Hne; [left; exact H|right; split; [exact H1|]].
  destruct (str_ltb_total (list_ascii_of_string a) (list_ascii_of_string b)) as [C|C];
    [intros E; apply Hne, list_ascii_inj, E|exact C|congruence].
Qed.

Lemma skipn_nth (t : list ascii) j d :
  nth_error t j = Some d -> skipn j t = d :: skipn (S j) t.
Proof.
  revert t. induction j as [|j IH]; intros [|c t] H; simpl in *; try discriminate.
  - injection H as ->. reflexivity.
  - exact (IH t H).
Qed.

Lemma match_lits t cs j e :
  Taxonomy.match_items t (app (map Taxonomy.Lit cs) [Taxonomy.WB]) j = Some e ->
  e = (j + List.length cs)%nat /\
  map lower_ascii (firstn (List.length cs) (skipn j t)) = map lower_ascii cs.
Proof.
  revert j. induction cs as [|c cs IH]; intros j H; simpl in H.
  - destruct (Taxonomy.boundary t j); [|discriminate]. injection H as <-.
    split; [simpl; lia|reflexivity].
  - destruct (Taxonomy.lit_at t j c) eqn:E; [|discriminate].
    destruct (IH _ H) as [H1 H2]. split; [simpl; lia|].
    unfold Taxonomy.lit_at in E. destruct (nth_error t j) as [d|] eqn:Ed; [|discriminate].
    rewrite (skipn_nth _ _ _ Ed). cbn [List.length firstn map]. rewrite H2. f_equal.
    apply Ascii.eqb_eq in E. exact E.
Qed.

Lemma match_alts_some t alts j e :
  Taxonomy.match_alts t alts j = Some e -> exists a, In a alts /\ Taxonomy.match_items t a j = Some e.
Proof.
  induction alts as [|a alts IH]; simpl; [discriminate|].
  destruct (Taxonomy.match_items t a j) eqn:E.
  - intros H. injection H as <-. exists a. split; [left; reflexivity|exact E].
  - intros H. destruct (IH H) as [b [Hb Hm]]. exists b. split; [right; exact Hb|exact Hm].
Qed.

Lemma size_token_shape t j e :
  size_token_at t j = Some e ->
  (exists a, In a SIZE_TOKEN_ALTS /\
     map lower_ascii (firstn (e - j) (skipn j t)) = map lower_ascii (list_ascii_of_string a)) \/
  (exists d1 d2, firstn (e - j) (skipn j t) = [d1; d2] /\
     Preprocess.is_digit d1 = true /\ Preprocess.is_digit d2 = true).
Proof.
  unfold size_token_at.
  destruct (Taxonomy.match_alts t _ j) as [e'|] eqn:E.
  - intros H. injection H as <-. left.
    apply match_alts_some in E as [it [Hit Hm]]. apply in_map_iff in Hit as [a [<- Ha]].
    exists a. split; [exact Ha|]. simpl in Hm.
    destruct (Taxonomy.boundary t j); [|discriminate].
    apply match_lits in Hm as [-> H2]. replace (j + _ - j)%nat with (List.length (list_ascii_of_string a)) by lia.
    rewrite ?length_map in H2. exact H2.
  - destruct (Taxonomy.boundary t j && digit_at t j && digit_at t (S j) && Taxonomy.boundary t (S (S j))) eqn:D;
      [|discriminate].
    intros H. injection H as <-. right.
    apply andb_prop in D as [D _]. apply andb_prop in D as [D D2]. apply andb_prop in D as [_ D1].
    unfold digit_at in D1, D2.
    destruct (nth_error t j) as [d1|] eqn:E1; [|discriminate].
    destruct (nth_error t (S j)) as [d2|] eqn:E2; [|discriminate].
    exists d1, d2. split; [|split; assumption].
    replace (S (S j) - j)%nat with 2%nat by lia.
    rewrite (skipn_nth _ _ _ E1), (skipn_nth _ _ _ E2). reflexivity.
Qed.

Lemma findall_go_tokens f t i tok :
  In tok (findall_go f t i) ->
  exists j e, size_token_at t j = Some e /\ tok = firstn (e - j) (skipn j t).
Proof.
  revert i. induction f as [|f IH]; intros i H; simpl in H; [destruct H|].
  destruct (List.length t <=? i)%nat; [destruct H|].
  destruct (size_token_at t i) as [e|] eqn:E.
  - destruct H as [<-|H]; [exists i, e; split; [exact E|reflexivity]|exact (IH _ H)].
  - exact (IH _ H).
Qed.

Lemma str_lower_list (l : list ascii) :
  str_lower (string_of_list_ascii l) = string_of_list_ascii (map lower_ascii l).
Proof. induction l as [|c l IH]; simpl; [reflexivity|]. rewrite IH. reflexivity. Qed.


Lemma digit_cases d : Preprocess.is_digit d = true -> In d digit_chars.
Proof.
  intros H.
  assert (Hall : forallb (fun n => implb (Preprocess.is_digit (ascii_of_nat n))
                                         (existsb (Ascii.eqb (ascii_of_nat n)) digit_chars))
                   (seq 0 256) = true) by (vm_compute; reflexivity).
  rewrite forallb_forall in Hall. specialize (Hall (nat_of_ascii d)).
  rewrite ascii_nat_embedding, H in Hall.
  assert (Hin : In (nat_of_ascii d) (seq 0 256)) by (apply in_seq; pose proof (nat_ascii_bounded d); lia).
  apply Hall in Hin. destruct (existsb (Ascii.eqb d) digit_chars) eqn:Ex; [|discriminate].
  apply existsb_exists in Ex as [c [Hc E]]. apply Ascii.eqb_eq in E. subst c. exact Hc.
Qed.

Lemma normalize_token t j e :
  size_token_at t j = Some e ->
  In (normalize (firstn (e - j) (skipn j t))) ["XXS"; "XS"; "S"; "M"; "L"; "XL"; "XXL"; "3XL"; "4XL"] \/
  exists d1 d2, Preprocess.is_digit d1 = true /\ Preprocess.is_digit d2 = true /\
                normalize (firstn (e - j) (skipn j t)) = String d1 (String d2 EmptyString).
Proof.
  intros H. destruct (size_token_shape t j e H) as [[a [Ha Hl]]|[d1 [d2 [Ht [H1 H2]]]]].
  - left. unfold normalize. cbv zeta. rewrite str_lower_list, Hl.
    simpl in Ha. repeat destruct Ha as [<-|Ha]; try contradiction; simpl; tauto.
  - right. exists d1, d2. split; [exact H1|]. split; [exact H2|]. rewrite Ht.
    apply digit_cases in H1, H2. unfold digit_chars in H1, H2. simpl in H1, H2.
    repeat destruct H1 as [<-|H1]; try contradiction;
    repeat destruct H2 as [<-|H2]; try contradiction; reflexivity.
Qed.

Section ParseOneProofs.

Variable set_order : list string -> list string.
Hypothesis Hset : forall xs, Permutation (set_order xs) xs.

(** [parse_one] returns distinct sizes in strictly increasing
    [(len(x), x)] order. *)
Theorem parse_one_sorted (s : option string) :
  StronglySorted
    (fun a b => (String.length a < String.length b)%nat \/
                (String.length a = String.length b /\
                 Taxonomy.str_ltb (list_ascii_of_string a) (list_ascii_of_string b) = true))
    (parse_one set_order s).
Proof.
  destruct s as [s|]; [|constructor].
  pose proof (SS_map_snd _ _
    (sort_by_sorted size_key_le size_key_le_total size_key_le_trans 0
       (set_order (Taxonomy.set_of (map normalize (findall (list_ascii_of_string s))))))) as H1.
  assert (Hn : NoDup (parse_one set_order (Some s))).
  { eapply Permutation_NoDup; [symmetry; etransitivity; [apply parse_one_perm|apply Hset]|].
    apply set_of_spec. }
  apply (SS_impl (fun a b => size_key_le a b = true /\ a <> b)).
  - intros a b [H H']. exact (size_key_le_strict a b H H').
  - apply SS_nodup_strict; [exact H1|exact Hn].
Qed.

(** Every size [parse_one] returns is a canonical letter size (an
    [XXXL] comes out as [3XL]) or two digits. *)
Theorem parse_one_canonical (s : option string) (x : string) :
  In x (parse_one set_order s) ->
  In x ["XXS"; "XS"; "S"; "M"; "L"; "XL"; "XXL"; "3XL"; "4XL"] \/
  exists d1 d2, Preprocess.is_digit d1 = true /\ Preprocess.is_digit d2 = true /\
                x = String d1 (String d2 EmptyString).
Proof.
  destruct s as [s|]; [|intros []].
  intros Hx. apply (Permutation_in _ (parse_one_perm set_order s)) in Hx.
  apply (Permutation_in _ (Hset _)) in Hx. apply (proj1 (proj2 (set_of_spec _) x)) in Hx.
  apply in_map_iff in Hx as [tok [<- Htok]].
  unfold findall in Htok. apply findall_go_tokens in Htok as [j [e [He ->]]].
  exact (normalize_token _ _ _ He).
Qed.

End ParseOneProofs.


Import Categories.
Local Open Scope string_scope.

Lemma split_go_chars sep k cur s p x :
  In p (Sizes.split_go sep k cur s) -> In x p -> In x cur \/ In x s.
Proof.
  revert k cur. induction s as [|c s IH]; intros k cur Hp Hx; simpl in Hp.
  - destruct Hp as [<-|[]]. left. apply in_rev. exact Hx.
  - destruct k as [|k].
    + destruct (Sizes.prefixb sep (c :: s)).
      * destruct Hp as [<-|Hp]; [left; apply in_rev; exact Hx|].
        destruct (IH _ _ Hp Hx) as [[]|H]; right; right; exact H.
      * destruct (IH _ _ Hp Hx) as [[<-|H]|H]; [right; left; reflexivity|left; exact H|right; right; exact H].
    + destruct (IH _ _ Hp Hx) as [H|H]; [left; exact H|right; right; exact H].
Qed.

(** Splitting on a one-character separator leaves it in no piece. *)
Lemma split_go_sep_free (c : ascii) k cur s p :
  ~ In c cur -> In p (Sizes.split_go [c] k cur s) -> ~ In c p.
Proof.
  revert k cur. induction s as [|d s IH]; intros k cur Hc Hp; simpl in Hp.
  - destruct Hp as [<-|[]]. rewrite <- in_rev. exact Hc.
  - destruct k as [|k].
    + destruct (Ascii.eqb c d && true) eqn:E.
      * destruct Hp as [<-|Hp]; [rewrite <- in_rev; exact Hc|].
        apply (IH _ [] (fun H => H) Hp).
      * apply (IH O (d :: cur)); [|exact Hp].
        intros [->|H]; [rewrite Ascii.eqb_refl in E; discriminate|exact (Hc H)].
    + exact (IH _ _ Hc Hp).
Qed.

Lemma join_chars sep ps x : In x (join sep ps) -> In x sep \/ exists p, In p ps /\ In x p.
Proof.
  induction ps as [|p ps IH]; simpl; [intros []|].
  destruct ps as [|p' ps'].
  - intros H. right. exists p. split; [left; reflexivity|exact H].
  - intros H. apply in_app_or in H as [H|H]; [right; exists p; split; [left; reflexivity|exact H]|].
    apply in_app_or in H as [H|H]; [left; exact H|].
    destruct (IH H) as [H'|[q [Hq Hx]]]; [left; exact H'|right; exists q; split; [right; exact Hq|exact Hx]].
Qed.

Lemma py_replace_chars old new s x :
  In x (py_replace old new s) -> In x (list_ascii_of_string new) \/ In x s.
Proof.
  unfold py_replace. intros H. apply join_chars in H as [H|[p [Hp Hx]]]; [left; exact H|].
  destruct (split_go_chars _ _ _ _ _ _ Hp Hx) as [[]|H]. right. exact H.
Qed.

Lemma py_replace_removes (c : ascii) new s :
  ~ In c (list_ascii_of_string new) -> ~ In c (py_replace (String c EmptyString) new s).
Proof.
  unfold py_replace. intros Hn H. apply join_chars in H as [H|[p [Hp Hx]]]; [exact (Hn H)|].
  exact (split_go_sep_free c _ [] s p (fun H => H) Hp Hx).
Qed.

Lemma words_go_chars cur s w x : In w (words_go cur s) -> In x w -> In x cur \/ In x s.
Proof.
  revert cur. induction s as [|c s IH]; intros cur Hw Hx; simpl in Hw.
  - destruct cur; [destruct Hw|]. destruct Hw as [<-|[]]. left. apply in_rev. exact Hx.
  - destruct (Preprocess.re_space c).
    + assert (Hsub : In w (words_go [] s) -> In x cur \/ In x (c :: s)).
      { intros H. destruct (IH _ H Hx) as [[]|H']. right. right. exact H'. }
      destruct cur as [|d cur']; [exact (Hsub Hw)|].
      destruct Hw as [<-|Hw]; [left; apply in_rev; exact Hx|exact (Hsub Hw)].
    + destruct (IH _ Hw Hx) as [[<-|H]|H]; [right; left; reflexivity|left; exact H|right; right; exact H].
Qed.

Lemma case_map_fixed (c : ascii) :
  In c ["&"; "-"; "_"]%char ->
  forall y, (SizeTokens.upper_ascii y = c \/ lower_ascii y = c) -> y = c.
Proof.
  intros Hc y Hy.
  assert (Hall : forallb (fun n =>
            forallb (fun c => implb (Ascii.eqb (SizeTokens.upper_ascii (ascii_of_nat n)) c
                                     || Ascii.eqb (lower_ascii (ascii_of_nat n)) c)
                                    (Ascii.eqb (ascii_of_nat n) c)) ["&"; "-"; "_"]%char)
            (seq 0 256) = true) by (vm_compute; reflexivity).
  rewrite forallb_forall in Hall.
  assert (Hin : In (nat_of_ascii y) (seq 0 256)) by (apply in_seq; pose proof (nat_ascii_bounded y); lia).
  specialize (Hall _ Hin). rewrite ascii_nat_embedding, forallb_forall in Hall.
  specialize (Hall c Hc).
  destruct Hy as [Hy|Hy]; rewrite Hy, Ascii.eqb_refl in Hall; [|rewrite orb_true_r in Hall];
    simpl in Hall; apply Ascii.eqb_eq in Hall; exact Hall.
Qed.

Lemma capitalize_chars w x : In x (capitalize w) -> exists y, In y w /\ (SizeTokens.upper_ascii y = x \/ lower_ascii y = x).
Proof.
  destruct w as [|c w]; simpl; [intros []|].
  intros [<-|H]; [exists c; split; [left; reflexivity|left; reflexivity]|].
  apply in_map_iff in H as [y [<- Hy]]. exists y. split; [right; exact Hy|right; reflexivity].
Qed.


Lemma fallback_free (cl : list ascii) (b : bool) x :
  ~ In "_"%char cl -> In x ["&"; "-"; "_"]%char ->
  ~ In x (join [" "%char] (map capitalize (words_go []
       (py_replace "-" " " (py_replace "&" " and " (if b then firstn (List.length cl - 6) cl else cl)))))).
Proof.
  intros Hu Hx H. apply join_chars in H as [H|[p [Hp Hxp]]].
  - simpl in H, Hx. intuition congruence.
  - apply in_map_iff in Hp as [w [<- Hw]]. apply capitalize_chars in Hxp as [y [Hy Hyx]].
    pose proof (case_map_fixed x Hx y Hyx) as ->.
    destruct (words_go_chars _ _ _ _ Hw Hy) as [[]|Hin].
    simpl in Hx. destruct Hx as [<-|[<-|[<-|[]]]].
    + apply py_replace_chars in Hin as [Hin|Hin]; [simpl in Hin; intuition congruence|].
      exact (py_replace_removes "&" " and " _ ltac:(simpl; intuition congruence) Hin).
    + exact (py_replace_removes "-" " " _ ltac:(simpl; intuition congruence) Hin).
    + apply py_replace_chars in Hin as [Hin|Hin]; [simpl in Hin; intuition congruence|].
      apply py_replace_chars in Hin as [Hin|Hin]; [simpl in Hin; intuition congruence|].
      apply Hu. destruct b; [exact (In_firstn_l _ _ _ Hin)|exact Hin].
Qed.

(** [clean_categories] never returns an empty label, and outside the
    mapping its labels hold no ['&'], ['-'] or ['_']: the only label with
    an ['&'] is ["Lingerie & Nightwear"]. *)
Theorem clean_categories_separators (category : option string) :
  clean_categories category <> "" /\
  (In "&"%char (list_ascii_of_string (clean_categories category)) ->
     clean_categories category = "Lingerie & Nightwear") /\
  ~ In "-"%char (list_ascii_of_string (clean_categories category)) /\
  ~ In "_"%char (list_ascii_of_string (clean_categories category)).
Proof.
  destruct category as [c|].
  2:{ simpl. split; [discriminate|]. split; [intros H; intuition discriminate|].
      split; intros H; intuition discriminate. }
  unfold clean_categories. cbv zeta.
  set (cl := py_replace "_" "-" (py_replace " - " "-"
               (Taxonomy.collapse_ws false (Taxonomy.strip (list_ascii_of_string (str_lower c)))))).
  destruct (find _ category_mapping) as [kv|] eqn:Ef.
  - apply find_some in Ef as [Hkv _]. simpl in Hkv.
    repeat destruct Hkv as [<-|Hkv]; try contradiction; simpl;
      (split; [discriminate|]);
      (split; [intros H; first [reflexivity | exfalso; intuition discriminate]|]);
      split; intros H; intuition discriminate.
  - assert (Hu : ~ In "_"%char cl) by (apply py_replace_removes; simpl; intuition congruence).
    pose proof (fallback_free cl (ends_with (list_ascii_of_string "-women") cl)) as Hf.
    destruct (join [" "%char] _) as [|a l] eqn:Ej.
    + split; [discriminate|]. split; [intros H; simpl in H; intuition discriminate|].
      split; intros H; simpl in H; intuition discriminate.
    + rewrite list_ascii_of_string_of_list_ascii.
      split; [discriminate|]. split; [|split].
      * intros H. exfalso. exact (Hf "&"%char Hu ltac:(simpl; tauto) H).
      * exact (Hf "-"%char Hu ltac:(simpl; tauto)).
      * exact (Hf "_"%char Hu ltac:(simpl; tauto)).
Qed.


(** ** Instances of the properties above on the sample catalog and on
    concrete strings, with the identity iteration order for sets. *)


Lemma get_products_by_category_prefix_witness :
  exists rows, get_products_by_category literal_re sample_index "western" 1 = Ok rows /\
               List.length rows = 1%nat.
Proof.
  pose proof (proj2 (get_products_by_category_prefix literal_re sample_index [row0; row1; row2]
                       "western" 1 eq_refl)
                    (filter (fun p => contains_ci "western" (Category p)) [row0; row1; row2])
                    (or_intror (conj eq_refl (ex_intro _ (contains_ci "western") (conj eq_refl eq_refl)))))
    as H.
  destruct H as [rows [rest [H1 [_ H3]]]].
  exists rows. split; [exact H1|].
  assert (E : Z.of_nat (List.length rows) = 1%Z) by (rewrite H3; vm_compute; reflexivity). lia.
Defined.

Lemma text_search_top_k_zero_witness :
  text_search stable_ties sample_index "red shirt" 0 = text_search stable_ties sample_index "red shirt" 3.
Proof.
  exact (text_search_top_k_zero stable_ties sample_index "red shirt"
           (map (fun p => sample_transform (search_text p)) [row0; row1; row2]) 0
           eq_refl (or_introl eq_refl)).
Defined.

Lemma get_product_by_id_roundtrip_witness :
  get_product_by_id sample_index 1 = Ok (Some row1).
Proof.
  apply (get_product_by_id_roundtrip sample_index [row0; row1; row2] row1 eq_refl).
  - simpl. repeat constructor; simpl; intuition discriminate.
  - simpl. tauto.
Defined.


Lemma categories_and_brands_unique_witness :
  exists cs bs, run_query stable_ties literal_re QCategories sample_engine = (Ok (ANames cs), sample_engine) /\
    run_query stable_ties literal_re QBrands sample_engine = (Ok (ANames bs), sample_engine) /\
    NoDup cs /\ NoDup bs.
Proof.
  destruct (categories_and_brands_unique stable_ties literal_re sample_engine sample_index
              [row0; row1; row2] eq_refl eq_refl eq_refl) as [cs [bs [H1 [H2 [H3 [_ [H5 _]]]]]]].
  exists cs, bs. tauto.
Defined.

Lemma price_ranges_distribution_witness :
  exists cs, run_query stable_ties literal_re QPriceRanges sample_engine = (Ok (ACounts cs), sample_engine) /\
    fold_right Z.add 0%Z (map snd cs) = 3%Z.
Proof.
  destruct (price_ranges_distribution stable_ties literal_re sample_engine sample_index
              [row0; row1; row2] eq_refl eq_refl eq_refl) as [cs [H1 [_ [_ [_ [H5 _]]]]]].
  exists cs. split; [exact H1|]. rewrite H5. reflexivity.
Defined.


Lemma smart_search_detected_witness :
  exists s m, material row1 = Some s /\ literal_re "cotton" = Pattern m /\ m s = true.
Proof.
  exact (proj2 (proj2 (proj2 (proj2 (proj2 (smart_search_detected stable_ties literal_re
           "cotton western shirt" 5 sample_engine
           [(row1, Some (Num 1)); (row0, Some (Num 1))] ltac:(vm_compute; reflexivity)
           (row1, Some (Num 1)) (or_introl eq_refl))))) "cotton" eq_refl)).
Defined.

Lemma parse_sizes_roundtrip_witness :
  Sizes.parse_sizes (Some (String.append "Size:" (String.concat ","%string ["Large"; "Medium"])))
  = Ok ["Large"; "Medium"].
Proof.
  apply (parse_sizes_roundtrip ["Large"; "Medium"]); [discriminate|].
  intros sz Hsz. simpl in Hsz. destruct Hsz as [E|[E|[]]]; subst sz;
    (split; [|split]); [simpl; intuition discriminate|simpl; intuition discriminate|vm_compute; reflexivity
                       |simpl; intuition discriminate|simpl; intuition discriminate|vm_compute; reflexivity].
Defined.

Lemma post_rules_guards_witness :
  In "tracksuit" (Taxonomy.post_rules (fun l => l) "red track suit" ["track pants"]) /\
  ~ In "track pants" (Taxonomy.post_rules (fun l => l) "red track suit" ["track pants"]).
Proof.
  destruct (post_rules_guards (fun l => l) (fun xs => Permutation_refl xs) "red track suit" ["track pants"])
    as [_ [_ [_ H]]].
  apply H. vm_compute. reflexivity.
Defined.

Lemma post_rules_output_shape_witness :
  NoDup (Taxonomy.post_rules (fun l => l) "kurta with dupatta" ["kurta"; "dupatta"]).
Proof.
  exact (proj1 (post_rules_output_shape (fun l => l) (fun xs => Permutation_refl xs)
                  "kurta with dupatta" ["kurta"; "dupatta"])).
Defined.

Lemma extract_product_type_labels_witness :
  NoDup (Taxonomy.extract_product_type (fun l => l) "top and blazer").
Proof.
  exact (proj1 (extract_product_type_labels (fun l => l) (fun xs => Permutation_refl xs) "top and blazer")).
Defined.

Lemma parse_one_sorted_witness :
  StronglySorted
    (fun a b => (String.length a < String.length b)%nat \/
                (String.length a = String.length b /\
                 Taxonomy.str_ltb (list_ascii_of_string a) (list_ascii_of_string b) = true))
    (SizeTokens.parse_one (fun l => l) (Some "Size:S,M,L,XL,32")).
Proof.
  exact (parse_one_sorted (fun l => l) (fun xs => Permutation_refl xs) (Some "Size:S,M,L,XL,32")).
Defined.

Lemma parse_one_canonical_witness :
  In "XL" ["XXS"; "XS"; "S"; "M"; "L"; "XL"; "XXL"; "3XL"; "4XL"] \/
  exists d1 d2, Preprocess.is_digit d1 = true /\ Preprocess.is_digit d2 = true /\
                "XL" = String d1 (String d2 EmptyString).
Proof.
  apply (parse_one_canonical (fun l => l) (fun xs => Permutation_refl xs) (Some "Size:S,M,L,XL,32") "XL").
  vm_compute. tauto.
Defined.
